(** * Session-backed OIDC authentication core of trade-demo-frontend

    A shallow embedding of

      - [src/server/common/helpers/oidc-discovery.js]   ([getOidcEndpoints])
      - [src/server/common/helpers/auth/token-refresh.js] ([refreshAccessToken])
      - [src/server/common/helpers/auth/session-strategy.js] ([authenticate])
      - [src/server/auth/controller.js]  ([callback], [logout])

    JavaScript values are an inductive type, objects are finite maps from
    property names to values, and the effects of the handlers (the yar
    session, the module-level discovery cache, [fetch], [Date.now]) are
    threaded through a small state-and-exception monad over a [world]. *)

From stdpp Require Import gmap strings list fin_maps pretty.

Set Warnings "-register-all".
Set Default Proof Using "Type".

Local Open Scope string_scope.
Local Open Scope Z_scope.

(** ** JavaScript values *)

Module JS.

(** JSON-shaped values.  Numbers are the integral ones (seconds, ports,
    epoch milliseconds, status codes); [NaN] only ever arises as an
    intermediate of arithmetic and is the [None] of [option Z] below. *)
Inductive value :=
| VUndefined
| VNull
| VBool (b : bool)
| VNum (n : Z)
| VStr (s : string)
| VArr (l : list value)
| VObj (o : gmap string value).

(** Thrown errors, by constructor, each with its [message]. *)
Inductive exn :=
| Error (msg : string)
| TypeError (msg : string)
| RangeError (msg : string)
| SyntaxError (msg : string).

Definition message (e : exn) : string :=
  match e with
  | Error m | TypeError m | RangeError m | SyntaxError m => m
  end.

(** ToBoolean. *)
Definition truthy (v : value) : bool :=
  match v with
  | VUndefined | VNull => false
  | VBool b => b
  | VNum n => negb (n =? 0)
  | VStr s => negb (String.eqb s "")
  | VArr _ | VObj _ => true
  end.

(** [a || b] and [a ?? b]. *)
Definition or_else (a b : value) : value := if truthy a then a else b.

Definition nullish (v : value) : bool :=
  match v with VUndefined | VNull => true | _ => false end.

Definition coalesce (a b : value) : value := if nullish a then b else a.

(** ToString, as a template literal applies it. *)
Fixpoint to_string (v : value) : string :=
  match v with
  | VUndefined => "undefined"
  | VNull => "null"
  | VBool b => if b then "true" else "false"
  | VNum n => pretty n
  | VStr s => s
  | VArr l =>
      (fix join (l : list value) : string :=
         match l with
         | [] => ""
         | [x] => if nullish x then "" else to_string x
         | x :: r => (if nullish x then "" else to_string x) +:+ "," +:+ join r
         end) l
  | VObj _ => "[object Object]"
  end.

(** Arithmetic on numbers, [None] being [NaN]. *)
Definition num_mul (a b : option Z) : option Z :=
  match a, b with Some x, Some y => Some (x * y) | _, _ => None end.

Definition num_add (a b : option Z) : option Z :=
  match a, b with Some x, Some y => Some (x + y) | _, _ => None end.

(** Own enumerable properties copied by an object spread [{...v}]. *)
Definition indexed (l : list value) : gmap string value :=
  list_to_map (imap (fun (i : nat) x => (pretty i, x)) l).

Definition chars (s : string) : list value :=
  (fun c => VStr (String c "")) <$> String.list_ascii_of_string s.

Definition spread (v : value) : gmap string value :=
  match v with
  | VObj o => o
  | VArr l => indexed l
  | VStr s => indexed (chars s)
  | VUndefined | VNull | VBool _ | VNum _ => ∅
  end.

(** The value of [v.k] where it does not throw.  The names the handlers read
    are plain identifiers (never an index, [length] or a prototype member),
    so on arrays and primitives the read is [undefined]. *)
Definition get (v : value) (k : string) : value :=
  match v with
  | VObj o => default VUndefined (o !! k)
  | _ => VUndefined
  end.

(** [encodeURIComponent]: every byte of the UTF-8 form of the string is kept
    when it is one of [A-Z a-z 0-9 - _ . ! ~ * ' ( )] and written as [%XX]
    otherwise. *)
Definition unreserved (c : Ascii.ascii) : bool :=
  let n := Z.of_nat (Ascii.nat_of_ascii c) in
  ((65 <=? n) && (n <=? 90)) || ((97 <=? n) && (n <=? 122))
  || ((48 <=? n) && (n <=? 57))
  || bool_decide (n ∈ [45; 95; 46; 33; 126; 42; 39; 40; 41]).

Definition hex_digit (n : nat) : Ascii.ascii :=
  if (n <? 10)%nat then Ascii.ascii_of_nat (48 + n) else Ascii.ascii_of_nat (55 + n).

Definition percent (c : Ascii.ascii) : string :=
  let n := Ascii.nat_of_ascii c in
  String (Ascii.ascii_of_nat 37) (String (hex_digit (n / 16)) (String (hex_digit (n mod 16)) "")).

Fixpoint encodeURIComponent (s : string) : string :=
  match s with
  | EmptyString => ""
  | String c r =>
      (if unreserved c then String c "" else percent c) +:+ encodeURIComponent r
  end.

End JS.

Import JS.

(** ** The world the handlers run in *)

(** The configuration the core reads through [config.get]: the module that
    declares it ([src/config/config.js]) validates [port] as a port number,
    [host] as a string and [isProduction] as a boolean. *)
Record config := Config {
  isProduction : bool;
  host : string;
  port : Z;
  defraId_oidcDiscoveryUrl : string;
  defraId_clientId : string;
  defraId_clientSecret : string;
}.

(** What is handed to [fetch]: the URL and, for a POST, the form fields
    given to [URLSearchParams] (in order) with the content type. *)
Record fetch_request := FetchRequest {
  req_url : value;
  req_method : string;
  req_content_type : option string;
  req_form : list (string * value);
}.

(** What [fetch] answers: the promise rejects (a transport failure), or it
    resolves to a response whose [json()] either parses or rejects. *)
Record response := Response {
  ok : bool;
  status : Z;
  statusText : string;
  text : string;
  json : exn + value;
}.

Inductive fetch_outcome :=
| Rejected (e : exn)
| Resolved (r : response).

(** An object obtained from [response.json()] together with the number of
    the request that produced it: two parses are two distinct objects even
    when their contents agree, so [origin] stands for object identity. *)
Record parsed := Parsed {
  origin : nat;
  content : value;
}.

(** The state of the process and of the request at hand.
    - [cachedOidcEndpoints]: the module-level [let] of oidc-discovery.js,
      [None] being its initial [null];
    - [network], [fetched]: the answer the [n]-th [fetch] gets and the
      requests made so far, oldest first;
    - [clock], [clock_reads]: the reading the [n]-th [Date.now()] returns
      and the number of readings taken;
    - [refresh_calls]: the arguments [refreshAccessToken] was called with
      (a record of the calls, as a test spy keeps it);
    - [yar_store], [yar_flash]: the session of the request ([request.yar]):
      its keyed values and its one-shot flash messages. *)
Record world := World {
  cachedOidcEndpoints : option parsed;
  network : nat -> fetch_request -> fetch_outcome;
  fetched : list fetch_request;
  clock : nat -> Z;
  clock_reads : nat;
  refresh_calls : list value;
  yar_store : gmap string value;
  yar_flash : gmap string (list value);
}.

Definition set_cachedOidcEndpoints (c : option parsed) (w : world) : world :=
  World c (network w) (fetched w) (clock w) (clock_reads w)
        (refresh_calls w) (yar_store w) (yar_flash w).

Definition set_fetched (l : list fetch_request) (w : world) : world :=
  World (cachedOidcEndpoints w) (network w) l (clock w) (clock_reads w)
        (refresh_calls w) (yar_store w) (yar_flash w).

Definition set_clock_reads (n : nat) (w : world) : world :=
  World (cachedOidcEndpoints w) (network w) (fetched w) (clock w) n
        (refresh_calls w) (yar_store w) (yar_flash w).

Definition set_refresh_calls (l : list value) (w : world) : world :=
  World (cachedOidcEndpoints w) (network w) (fetched w) (clock w)
        (clock_reads w) l (yar_store w) (yar_flash w).

Definition set_yar_store (m : gmap string value) (w : world) : world :=
  World (cachedOidcEndpoints w) (network w) (fetched w) (clock w)
        (clock_reads w) (refresh_calls w) m (yar_flash w).

Definition set_yar_flash (m : gmap string (list value)) (w : world) : world :=
  World (cachedOidcEndpoints w) (network w) (fetched w) (clock w)
        (clock_reads w) (refresh_calls w) (yar_store w) m.

(** ** Computations: state and exceptions *)

Definition M (A : Type) : Type := world -> (exn + A) * world.

Definition ret {A} (a : A) : M A := fun w => (inr a, w).

Definition throw {A} (e : exn) : M A := fun w => (inl e, w).

Definition bind {A B} (c : M A) (k : A -> M B) : M B :=
  fun w =>
    match c w with
    | (inr a, w') => k a w'
    | (inl e, w') => (inl e, w')
    end.

(** [try { c } catch (error) { h error }]: what [c] did to the world before
    it threw stays done. *)
Definition try_catch {A} (c : M A) (h : exn -> M A) : M A :=
  fun w =>
    match c w with
    | (inr a, w') => (inr a, w')
    | (inl e, w') => h e w'
    end.

Notation "'let*' x ':=' c 'in' k" := (bind c (fun x => k))
  (at level 10, x name, c at level 100, k at level 200).
Notation "c ';;' k" := (bind c (fun _ => k))
  (at level 100, k at level 200, right associativity).

Definition lift {A} (r : exn + A) : M A :=
  match r with inl e => throw e | inr a => ret a end.

(** [v.k] as an expression: reading a property of [undefined] or [null]
    throws a [TypeError]. *)
Definition prop (v : value) (k : string) : M value :=
  if nullish v
  then throw (TypeError ("Cannot read properties of " +:+ to_string v
                         +:+ " (reading '" +:+ k +:+ "')"))
  else ret (get v k).

(** [Date.now()]. *)
Definition Date_now : M Z :=
  fun w => (inr (clock w (clock_reads w)), set_clock_reads (S (clock_reads w)) w).

(** [fetch(...)]: the request is made, and the promise rejects or resolves.
    The response is paired with the number of the request. *)
Definition fetch (req : fetch_request) : M (nat * response) :=
  fun w =>
    let n := length (fetched w) in
    let w' := set_fetched (fetched w ++ [req])%list w in
    match network w n req with
    | Rejected e => (inl e, w')
    | Resolved r => (inr (n, r), w')
    end.

(** [response.json()]. *)
Definition response_json (r : nat * response) : M parsed :=
  match json (snd r) with
  | inl e => throw e
  | inr v => ret (Parsed (fst r) v)
  end.

(** The session of the request, [request.yar] of @hapi/yar, by the contract
    the core relies on: [get(key)] (null when absent), [set(key, value)],
    [clear(key)], and the flash messages: [flash(type, message)] appends a
    message, [flash(type)] returns the messages of a type and deletes them
    (an empty array when there are none). *)
Definition yar_get (key : string) : M value :=
  fun w => (inr (default VNull (yar_store w !! key)), w).

Definition yar_set (key : string) (v : value) : M unit :=
  fun w => (inr tt, set_yar_store (<[key := v]> (yar_store w)) w).

Definition yar_clear (key : string) : M unit :=
  fun w => (inr tt, set_yar_store (delete key (yar_store w)) w).

Definition yar_flash_add (type : string) (msg : value) : M unit :=
  fun w =>
    (inr tt,
     set_yar_flash
       (<[type := (default [] (yar_flash w !! type) ++ [msg])%list]> (yar_flash w)) w).

Definition yar_flash_take (type : string) : M (list value) :=
  fun w =>
    (inr (default [] (yar_flash w !! type)),
     set_yar_flash (delete type (yar_flash w)) w).

(** ** OIDC discovery cache (oidc-discovery.js) *)

Definition cache_set (c : parsed) : M unit :=
  fun w => (inr tt, set_cachedOidcEndpoints (Some c) w).

Definition cache_truthy (c : option parsed) : bool :=
  match c with
  | Some p => truthy (content p)
  | None => false
  end.

Definition cache_get : M (option parsed) :=
  fun w => (inr (cachedOidcEndpoints w), w).

Definition getOidcEndpoints (cfg : config) : M parsed :=
  let discover : M parsed :=
    let discoveryUrl := defraId_oidcDiscoveryUrl cfg in
    try_catch
      (let* response := fetch (FetchRequest (VStr discoveryUrl) "GET" None []) in
       if negb (ok (snd response))
       then throw (Error ("OIDC discovery failed: "
                          +:+ pretty (status (snd response)) +:+ " "
                          +:+ statusText (snd response)))
       else
         let* endpoints := response_json response in
         (* Cache the endpoints *)
         cache_set endpoints ;;
         ret endpoints)
      (fun error =>
         throw (Error ("Failed to fetch OIDC configuration: " +:+ message error)))
  in
  let* cached := cache_get in
  match cached with
  | Some p => if truthy (content p) then ret p else discover
  | None => discover
  end.

(** ** Token refresh client (token-refresh.js) *)

Definition note_refresh_call (refreshToken : value) : M unit :=
  fun w => (inr tt, set_refresh_calls (refresh_calls w ++ [refreshToken])%list w).

Definition refreshAccessToken (cfg : config) (refreshToken : value) : M value :=
  note_refresh_call refreshToken ;;
  if negb (truthy refreshToken)
  then throw (Error "No refresh token provided")
  else
    let* oidcEndpoints := getOidcEndpoints cfg in
    let params :=
      [ ("grant_type", VStr "refresh_token");
        ("refresh_token", refreshToken);
        ("client_id", VStr (defraId_clientId cfg));
        ("client_secret", VStr (defraId_clientSecret cfg)) ] in
    let* token_endpoint := prop (content oidcEndpoints) "token_endpoint" in
    let* response :=
      fetch (FetchRequest token_endpoint "POST"
                          (Some "application/x-www-form-urlencoded") params) in
    if negb (ok (snd response))
    then
      let errorText := text (snd response) in
      throw (Error ("Token refresh failed: " +:+ pretty (status (snd response))
                    +:+ " " +:+ statusText (snd response) +:+ " - " +:+ errorText))
    else
      let* body := response_json response in
      ret (content body).

(** ** Requests and replies *)

(** The parts of a hapi request the core reads: [request.path], the route's
    [request.route.settings.auth.mode], and [request.auth.credentials] as the
    OAuth2 layer (Bell) left them: [{ token, refreshToken, expiresIn }]. *)
Record request := Request {
  path : string;
  auth_mode : string;
  auth_credentials : value;
}.

(** What a handler answers through the response toolkit [h]. *)
Inductive reply :=
| Authenticated (credentials : value)   (* h.authenticated({ credentials }) *)
| RedirectTakeover (location : value)   (* h.redirect(location).takeover() *)
| Redirect (location : value).          (* h.redirect(location) *)

(** Modelled from the spec: [src/server/common/helpers/session-helpers.js]
    ([setSessionValue], [clearSessionValue]) is not among the sources.  The
    spec gives the session store [set(key, value)] and [clear(key)] semantics,
    and the controller's tests observe [request.yar.set('auth', ...)] and
    [request.yar.clear('auth')] for the undotted key the core uses. *)
Definition setSessionValue (key : string) (v : value) : M unit := yar_set key v.

Definition clearSessionValue (key : string) : M unit := yar_clear key.

Section Core.

(** The language and library primitives the code calls and this repository
    does not define.
    - [parseISO] (date-fns): the epoch milliseconds of a date string,
      [None] for an Invalid Date; it may throw on a non-string;
    - [toISOString]: [Date.prototype.toISOString] on a valid time value;
    - [StringToNumber]: the numeric value of a string, [None] for [NaN];
    - [jwt_token_decode] (@hapi/jwt): the decoded artifacts of a token, or
      the error it throws on a malformed one. *)
Variable parseISO : value -> exn + option Z.
Variable toISOString : Z -> string.
Variable StringToNumber : string -> option Z.
Variable jwt_token_decode : value -> exn + value.

Variable cfg : config.

(** ToNumber. *)
Definition to_number (v : value) : option Z :=
  match v with
  | VUndefined => None
  | VNull => Some 0
  | VBool b => Some (if b then 1 else 0)
  | VNum n => Some n
  | VStr s => StringToNumber s
  | VArr _ => StringToNumber (to_string v)
  | VObj _ => None
  end.

(** [new Date(t).toISOString()]: a [RangeError] when the time value is [NaN]
    or beyond 8.64e15 ms from the epoch. *)
Definition max_time : Z := 8640000000000000.

Definition Date_toISOString (t : option Z) : M string :=
  match t with
  | Some t =>
      if Z.abs t <=? max_time then ret (toISOString t)
      else throw (RangeError "Invalid time value")
  | None => throw (RangeError "Invalid time value")
  end.

(** A [Date] holds a time value of at most 8.64e15 ms from the epoch: a
    value beyond that makes an Invalid Date (TimeClip). *)
Definition TimeClip (t : Z) : option Z :=
  if Z.abs t <=? max_time then Some t else None.

(** date-fns: [subMinutes(date, amount)] makes a new [Date] of the time of
    [date] less [amount] minutes, and [isPast(date)] is [+date < Date.now()];
    an Invalid Date stays invalid and is never past. *)
Definition subMinutes (d : option Z) (amount : Z) : option Z :=
  match d with
  | Some t => TimeClip (t - amount * 60000)
  | None => None
  end.

Definition isPast (d : option Z) : M bool :=
  let* now := Date_now in
  ret (match d with Some t => t <? now | None => false end).

(** ** Session authentication strategy (session-strategy.js) *)

Definition authenticate (req : request) : M reply :=
  (* Get session data from yar *)
  let* sessionData := yar_get "auth" in
  (* Check authentication mode from route configuration *)
  let authMode := auth_mode req in
  if negb (truthy sessionData) then
    (* No session data *)
    if String.eqb authMode "try" || String.eqb authMode "optional" then
      ret (Authenticated (VObj ∅))
    else
      (* For 'required' mode, save original path and redirect to login *)
      yar_flash_add "redirect" (VStr (path req)) ;;
      ret (RedirectTakeover (VStr "/auth/login"))
  else
    (* Check if token has expired (with 1-minute buffer) *)
    let* expiresAt := prop sessionData "expiresAt" in
    let* date := lift (parseISO expiresAt) in
    let* tokenHasExpired := isPast (subMinutes date 1) in
    let* refreshToken := prop sessionData "refreshToken" in
    if tokenHasExpired && truthy refreshToken then
      try_catch
        ((* Attempt to refresh the access token *)
         let* newTokens := refreshAccessToken cfg refreshToken in
         (* Update session with new tokens *)
         let* access_token := prop newTokens "access_token" in
         let* refresh_token := prop newTokens "refresh_token" in
         let* now := Date_now in
         let* expires_in := prop newTokens "expires_in" in
         let* iso :=
           Date_toISOString
             (num_add (Some now) (num_mul (to_number expires_in) (Some 1000))) in
         let updatedSession :=
           VObj (<["expiresAt" := VStr iso]>
                   (<["refreshToken" := refresh_token]>
                      (<["accessToken" := access_token]> (spread sessionData)))) in
         yar_set "auth" updatedSession ;;
         ret (Authenticated updatedSession))
        (fun error =>
           (* Token refresh failed - clear session *)
           yar_clear "auth" ;;
           if String.eqb authMode "try" || String.eqb authMode "optional" then
             (* Allow request to proceed without credentials *)
             ret (Authenticated (VObj ∅))
           else
             (* For 'required' mode, redirect to login *)
             yar_flash_add "redirect" (VStr (path req)) ;;
             ret (RedirectTakeover (VStr "/auth/login")))
    else
      ret (Authenticated sessionData).

(** The [try] block of the strategy for the stored session [s], and its
    [catch] block. *)
Definition refresh_session (s : value) : M reply :=
  let* newTokens := refreshAccessToken cfg (get s "refreshToken") in
  let* access_token := prop newTokens "access_token" in
  let* refresh_token := prop newTokens "refresh_token" in
  let* now := Date_now in
  let* expires_in := prop newTokens "expires_in" in
  let* iso :=
    Date_toISOString
      (num_add (Some now) (num_mul (to_number expires_in) (Some 1000))) in
  let updatedSession :=
    VObj (<["expiresAt" := VStr iso]>
            (<["refreshToken" := refresh_token]>
               (<["accessToken" := access_token]> (spread s)))) in
  yar_set "auth" updatedSession ;;
  ret (Authenticated updatedSession).

Definition refresh_failed (req : request) (error : exn) : M reply :=
  yar_clear "auth" ;;
  if String.eqb (auth_mode req) "try" || String.eqb (auth_mode req) "optional" then
    ret (Authenticated (VObj ∅))
  else
    yar_flash_add "redirect" (VStr (path req)) ;;
    ret (RedirectTakeover (VStr "/auth/login")).

(** ** Authorization-code flow handlers (auth/controller.js) *)

Definition callback (req : request) : M reply :=
  try_catch
    ((* Bell has already validated tokens and made them available *)
     let credentials := auth_credentials req in
     (* Decode ID token to access DEFRA-specific claims *)
     let* idToken := prop credentials "token" in
     let* decoded := lift (jwt_token_decode idToken) in
     let* artifacts := prop decoded "decoded" in
     let* claims := prop artifacts "payload" in
     let* _ := prop claims "contactId" in   (* read for the log line *)
     (* Construct session data object *)
     let* contactId := prop claims "contactId" in
     let* email := prop claims "email" in
     let* given_name := prop claims "given_name" in
     let* accessToken := prop credentials "token" in
     let* refreshToken := prop credentials "refreshToken" in
     let* now := Date_now in
     let* expiresIn := prop credentials "expiresIn" in
     let* expiresAt :=
       Date_toISOString
         (num_add (Some now) (num_mul (to_number expiresIn) (Some 1000))) in
     let* relationships := prop claims "relationships" in
     let* roles := prop claims "roles" in
     let* aal := prop claims "aal" in
     let* loa := prop claims "loa" in
     let sessionData :=
       VObj (list_to_map
               [ ("contactId", contactId);
                 ("email", email);
                 ("displayName", or_else given_name email);
                 ("accessToken", accessToken);
                 ("refreshToken", refreshToken);
                 ("expiresAt", VStr expiresAt);
                 ("relationships", or_else relationships (VArr []));
                 ("roles", or_else roles (VArr []));
                 ("aal", aal);
                 ("loa", loa) ]) in
     (* Store session in Redis (via @hapi/yar) *)
     setSessionValue "auth" sessionData ;;
     (* Redirect to original page or homepage *)
     let* messages := yar_flash_take "redirect" in
     let redirect := coalesce (default VUndefined (head messages)) (VStr "/") in
     ret (Redirect redirect))
    (fun error => throw error).

(** The post-logout redirect URI: the port is left out for 80 and 443. *)
Definition postLogoutUri : string :=
  let protocol := if isProduction cfg then "https" else "http" in
  if (port cfg =? 80) || (port cfg =? 443)
  then protocol +:+ "://" +:+ host cfg
  else protocol +:+ "://" +:+ host cfg +:+ ":" +:+ pretty (port cfg).

Definition logout (req : request) : M reply :=
  (* Clear session data from Redis *)
  clearSessionValue "auth" ;;
  (* Fetch DEFRA ID endpoints from OIDC discovery document *)
  let* oidcEndpoints := getOidcEndpoints cfg in
  let* end_session_endpoint := prop (content oidcEndpoints) "end_session_endpoint" in
  (* Construct logout URL following OIDC RP-Initiated Logout spec *)
  let logoutUrl :=
    to_string end_session_endpoint +:+ "?post_logout_redirect_uri="
    +:+ encodeURIComponent postLogoutUri in
  (* Redirect user to DEFRA ID logout endpoint *)
  ret (Redirect (VStr logoutUrl)).

(** ** The life of the process *)

(** One thing that happens in the process: a call of one of the operations
    of the core, or the arrival of a request with a session of its own. *)
Inductive step : world -> world -> Prop :=
| step_getOidcEndpoints w :
    step w (snd (getOidcEndpoints cfg w))
| step_refreshAccessToken refreshToken w :
    step w (snd (refreshAccessToken cfg refreshToken w))
| step_authenticate req w :
    step w (snd (authenticate req w))
| step_callback req w :
    step w (snd (callback req w))
| step_logout req w :
    step w (snd (logout req w))
| step_request store flash w :
    step w (set_yar_flash flash (set_yar_store store w)).

End Core.

(** ** Strings as JavaScript measures and trims them

    A string is held as the bytes of its UTF-8 form.  [length] in JavaScript
    counts UTF-16 code units, and [trim] removes the code points of WhiteSpace
    and LineTerminator from both ends. *)

Module JSString.

Local Open Scope nat_scope.

Definition bytes (l : list nat) : list Ascii.ascii := Ascii.ascii_of_nat <$> l.

(** TAB, LF, VT, FF, CR, SPACE, U+00A0, U+1680, U+2000..U+200A, U+2028,
    U+2029, U+202F, U+205F, U+3000 and U+FEFF, in UTF-8. *)
Definition white_space : list (list Ascii.ascii) :=
  (bytes <$> [ [9]; [10]; [11]; [12]; [13]; [32]; [194; 160]; [225; 154; 128] ])
  ++ ((fun n => bytes [226; 128; n]) <$> seq 128 11)
  ++ (bytes <$> [ [226; 128; 168]; [226; 128; 169]; [226; 128; 175];
                  [226; 129; 159]; [227; 128; 128]; [239; 187; 191] ]).

(** What is left of [l] after the prefix [p], when [l] starts with it. *)
Fixpoint drop_prefix (p l : list Ascii.ascii) : option (list Ascii.ascii) :=
  match p, l with
  | [], _ => Some l
  | a :: p', b :: l' => if Ascii.eqb a b then drop_prefix p' l' else None
  | _ :: _, [] => None
  end.

(** What is left of [l] after one of the sequences [seqs], the first that
    [l] starts with. *)
Fixpoint skip_one (seqs : list (list Ascii.ascii)) (l : list Ascii.ascii) :
    option (list Ascii.ascii) :=
  match seqs with
  | [] => None
  | p :: rest =>
      match drop_prefix p l with
      | Some r => Some r
      | None => skip_one rest l
      end
  end.

(** Sequences are skipped at the front for as long as there is one, at most
    [fuel] times. *)
Fixpoint strip (seqs : list (list Ascii.ascii)) (fuel : nat) (l : list Ascii.ascii) :
    list Ascii.ascii :=
  match fuel with
  | O => l
  | S fuel' =>
      match skip_one seqs l with
      | Some r => strip seqs fuel' r
      | None => l
      end
  end.

Definition trimStart (l : list Ascii.ascii) : list Ascii.ascii :=
  strip white_space (length l) l.

Definition trimEnd (l : list Ascii.ascii) : list Ascii.ascii :=
  reverse (strip (reverse <$> white_space) (length l) (reverse l)).

(** [s.trim()]. *)
Definition trim (s : string) : string :=
  String.string_of_list_ascii (trimEnd (trimStart (String.list_ascii_of_string s))).

(** The UTF-16 code units of the code point a byte starts: none for a
    continuation byte, two for the lead byte of a four-byte form. *)
Definition units (c : Ascii.ascii) : nat :=
  let n := Ascii.nat_of_ascii c in
  if n <? 128 then 1
  else if n <? 192 then 0
  else if n <? 240 then 1
  else 2.

(** [s.length]. *)
Definition length (s : string) : nat :=
  sum_list (units <$> String.list_ascii_of_string s).

(** [s.startsWith(p)]. *)
Definition startsWith (s p : string) : bool := String.prefix p s.

End JSString.

(** ** Bell strategy for the identity provider (defra-id-strategy.js) *)

(** The options handed to [server.auth.strategy('defra-id', 'bell', ...)],
    without the functions among them, which are modelled on their own below. *)
Record bell_options := BellOptions {
  location : string;
  provider_name : string;
  provider_protocol : string;
  provider_useParamsAuth : bool;
  provider_auth : value;
  provider_token : value;
  provider_scope : list string;
  password : string;
  clientId : string;
  clientSecret : string;
  forceHttps : bool;
  isSecure : bool;
  config_usePKCE : bool;
}.

(** What a view handler answers: [h.view(template, context)]. *)
Inductive page :=
| View (template : string) (context : value).

(** Modelled from the spec: [getSessionValue] of
    [src/server/common/helpers/session-helpers.js] is not among the sources;
    the dashboard's tests observe [request.yar.get('auth', false)], a read
    that does not clear. *)
Definition getSessionValue (key : string) : M value := yar_get key.

Section Setup.

Variable jwt_token_decode : value -> exn + value.
Variable cfg : config.

(** [config.get('defraId.serviceId')], [config.get('session.cookie.password')]
    and [config.get('isTest')]. *)
Variable defraId_serviceId : string.
Variable session_cookie_password : string.
Variable isTest : bool.

(** The OAuth callback URL. *)
Definition callbackUrl : string :=
  let protocol := if isProduction cfg then "https" else "http" in
  let host := if String.eqb (host cfg) "0.0.0.0" then "localhost" else host cfg in
  let portSuffix :=
    if (port cfg =? 80) || (port cfg =? 443) then "" else ":" +:+ pretty (port cfg) in
  protocol +:+ "://" +:+ host +:+ portSuffix +:+ "/auth/callback".

(** [provider.profile(credentials, params)]. *)
Definition profile (credentials params : value) : M value :=
  (* Decode ID token to extract user claims *)
  let* idToken := prop params "id_token" in
  let* decoded := lift (jwt_token_decode idToken) in
  let* artifacts := prop decoded "decoded" in
  let* claims := prop artifacts "payload" in
  let* id := prop claims "contactId" in
  let* email := prop claims "email" in
  let* displayName := prop claims "given_name" in
  ret (VObj (list_to_map
               [ ("id", id);
                 ("email", email);
                 ("displayName", displayName);
                 ("raw", claims) ])).

(** [providerParams(request)], of [request.query]. *)
Definition providerParams (query : value) : gmap string value :=
  let params : gmap string value := {[ "serviceId" := VStr defraId_serviceId ]} in
  (* Support OpenID Connect login_hint parameter for cross-system SSO *)
  if truthy (get query "login_hint") then
    let loginHint := JSString.trim (to_string (get query "login_hint")) in
    (* Basic validation: non-empty and reasonable length *)
    if truthy (VStr loginHint) && (JSString.length loginHint <=? 255)%nat then
      <["login_hint" := VStr loginHint]> params
    else params
  else params.

(** [setupDefraIdStrategy(server)]: what it registers the strategy with. *)
Definition setupDefraIdStrategy : M bell_options :=
  (* Fetch OIDC endpoints from discovery *)
  let* oidcEndpoints := getOidcEndpoints cfg in
  let* authorization_endpoint := prop (content oidcEndpoints) "authorization_endpoint" in
  let* token_endpoint := prop (content oidcEndpoints) "token_endpoint" in
  ret {| location := callbackUrl;
         provider_name := "defra-id";
         provider_protocol := "oauth2";
         provider_useParamsAuth := true;
         provider_auth := authorization_endpoint;
         provider_token := token_endpoint;
         provider_scope := ["openid"; "profile"; "email"; "offline_access"];
         password := session_cookie_password;
         clientId := defraId_clientId cfg;
         clientSecret := defraId_clientSecret cfg;
         forceHttps := isProduction cfg;
         isSecure := isProduction cfg;
         config_usePKCE := true |}.

(** ** Login and dashboard handlers, CSRF exemption *)

(** [authController.login.handler]. *)
Definition login (req : request) : M reply := ret (Redirect (VStr "/")).

(** [dashboardController.handler]. *)
Definition dashboardController : M page :=
  (* Retrieve authentication data from session *)
  let* authData := getSessionValue "auth" in
  let* displayName := prop authData "displayName" in
  let* email := prop authData "email" in
  let* contactId := prop authData "contactId" in
  ret (View "dashboard/index"
         (VObj (list_to_map
            [ ("pageTitle", VStr "Dashboard");
              ("heading", VStr "Trade Imports Dashboard");
              ("user", VObj (list_to_map
                               [ ("displayName", displayName);
                                 ("email", email);
                                 ("contactId", contactId) ]));
              ("showImportsLink", VBool true) ]))).

(** The [skip] option of the Crumb plugin in server.js. *)
Definition skip (path : string) : bool :=
  (* Skip CSRF in test environment *)
  if isTest then true
  else
    (* Skip CSRF for health check and static assets *)
    JSString.startsWith path "/health"
    || JSString.startsWith path "/assets"
    || JSString.startsWith path "/public".

End Setup.

(** The login hint of a query as [providerParams] cleans it. *)
Definition cleaned_hint (query : value) : string :=
  JSString.trim (to_string (get query "login_hint")).

(** The request a refresh makes of the token endpoint of the endpoints [p]. *)
Definition token_request (cfg : config) (p : parsed) (refreshToken : value) :
    fetch_request :=
  FetchRequest (get (content p) "token_endpoint") "POST"
    (Some "application/x-www-form-urlencoded")
    [ ("grant_type", VStr "refresh_token");
      ("refresh_token", refreshToken);
      ("client_id", VStr (defraId_clientId cfg));
      ("client_secret", VStr (defraId_clientSecret cfg)) ].

(** The world once [refreshAccessToken] has been entered with a token. *)
Definition noted (refreshToken : value) (w : world) : world :=
  set_refresh_calls (refresh_calls w ++ [refreshToken])%list w.


(** The names of the fields of a session record. *)
Definition session_keys : list string :=
  [ "contactId"; "email"; "displayName"; "accessToken"; "refreshToken";
    "expiresAt"; "relationships"; "roles"; "aal"; "loa" ].

(** A string starts, or ends, with a code point that [trim] removes. *)
Definition leading_white_space (s : string) : bool :=
  bool_decide (is_Some (JSString.skip_one JSString.white_space
                          (String.list_ascii_of_string s))).

Definition trailing_white_space (s : string) : bool :=
  bool_decide (is_Some (JSString.skip_one (reverse <$> JSString.white_space)
                          (reverse (String.list_ascii_of_string s)))).

(** ** Vocabulary of the properties *)

(** The world after one reading of [Date.now()]. *)
Definition tick (w : world) : world := set_clock_reads (S (clock_reads w)) w.

(** The world after [flash('redirect', path)]. *)
Definition marked (p : string) (w : world) : world :=
  set_yar_flash
    (<["redirect" := (default [] (yar_flash w !! "redirect") ++ [VStr p])%list]>
       (yar_flash w)) w.

(** The world after [clear('auth')]. *)
Definition cleared (w : world) : world :=
  set_yar_store (delete "auth" (yar_store w)) w.

(** The route lets a request without a session through. *)
Definition lenient (mode : string) : bool :=
  String.eqb mode "try" || String.eqb mode "optional".

(** The check of session-strategy.js: [isPast(subMinutes(date, 1))] when
    [Date.now()] reads [now]. *)
Definition tokenHasExpired (date : option Z) (now : Z) : bool :=
  match subMinutes date 1 with
  | Some t => t <? now
  | None => false
  end.

(** The request discovery makes, and the world once the [n]-th request of the
    process has gone out. *)
Definition discovery_request (cfg : config) : fetch_request :=
  FetchRequest (VStr (defraId_oidcDiscoveryUrl cfg)) "GET" None [].

Definition requested (req : fetch_request) (w : world) : world :=
  set_fetched (fetched w ++ [req])%list w.

(** The session record after a refresh: the stored record with the three
    token fields replaced. *)
Definition updated (o : gmap string value) (newTokens : value) (iso : string) :
    gmap string value :=
  <["expiresAt" := VStr iso]>
    (<["refreshToken" := get newTokens "refresh_token"]>
       (<["accessToken" := get newTokens "access_token"]> o)).

(** The message of the [TypeError] a property read of a nullish value throws. *)
Definition cannot_read (v : value) (k : string) : exn :=
  TypeError ("Cannot read properties of " +:+ to_string v +:+ " (reading '" +:+ k +:+ "')").

(** The session record the callback builds from the claims of the ID token
    and the credentials of the OAuth2 layer. *)
Definition session_record (claims credentials : value) (expiresAt : string) :
    gmap string value :=
  list_to_map
    [ ("contactId", get claims "contactId");
      ("email", get claims "email");
      ("displayName", or_else (get claims "given_name") (get claims "email"));
      ("accessToken", get credentials "token");
      ("refreshToken", get credentials "refreshToken");
      ("expiresAt", VStr expiresAt);
      ("relationships", or_else (get claims "relationships") (VArr []));
      ("roles", or_else (get claims "roles") (VArr []));
      ("aal", get claims "aal");
      ("loa", get claims "loa") ].

(** The world after a callback that stored [record]: the record is under
    'auth' and the pending-redirect marker has been consumed. *)
Definition signed_in (record : gmap string value) (w : world) : world :=
  set_yar_flash (delete "redirect" (yar_flash w))
    (set_yar_store (<["auth" := VObj record]> (yar_store w)) (tick w)).

(** Where the callback sends the browser. *)
Definition pending_redirect (w : world) : value :=
  coalesce (default VUndefined (head (default [] (yar_flash w !! "redirect")))) (VStr "/").

(** The reply of logout when discovery yields the endpoints [p]. *)
Definition logout_reply (cfg : config) (p : parsed) : reply :=
  Redirect (VStr (to_string (get (content p) "end_session_endpoint")
                  +:+ "?post_logout_redirect_uri="
                  +:+ encodeURIComponent (postLogoutUri cfg))).

(** [c] never changes the component [f] of the world. *)
Definition preserves {A X} (f : world -> X) (c : M A) : Prop :=
  forall w, f (snd (c w)) = f w.

(** [c] keeps the property [P] of the world. *)
Definition stable {A} (P : world -> Prop) (c : M A) : Prop :=
  forall w, P w -> P (snd (c w)).

(** The endpoints [p] are the ones cached. *)
Definition caches (p : parsed) (w : world) : Prop := cachedOidcEndpoints w = Some p.

(** ** Test doubles

    Stand-ins for the primitives above and a scripted network, in the manner
    of the mocks of the repository's tests; the examples run on them. *)

Module Doubles.

(** Two instants and their ISO renderings; a third date, the first a [Date]
    can hold, is read as well. *)
Definition t0 : Z := 1735689600000.   (* 2025-01-01T00:00:00.000Z *)
Definition t1 : Z := 1735693200000.   (* 2025-01-01T01:00:00.000Z *)

Definition parseISO (v : value) : exn + option Z :=
  match v with
  | VStr s =>
      if String.eqb s "2025-01-01T00:00:00.000Z" then inr (Some t0)
      else if String.eqb s "2025-01-01T01:00:00.000Z" then inr (Some t1)
      else if String.eqb s "-271821-04-20T00:00:00.000Z" then inr (Some (- max_time))
      else inr None
  | _ => inl (TypeError "argument is not a string")
  end.

Definition toISOString (t : Z) : string :=
  if t =? t0 then "2025-01-01T00:00:00.000Z"
  else if t =? t1 then "2025-01-01T01:00:00.000Z"
  else "epoch+" +:+ pretty t +:+ "ms".

Definition StringToNumber (s : string) : option Z :=
  if String.eqb s "" then Some 0
  else if String.eqb s "3600" then Some 3600
  else None.

(** A decoder that knows three tokens. *)
Definition artifacts (payload : gmap string value) : value :=
  VObj {[ "decoded" := VObj {[ "payload" := VObj payload ]} ]}.

Definition blank_name_claims : gmap string value :=
  list_to_map
    [ ("contactId", VStr "test-contact-id");
      ("email", VStr "test@example.com");
      ("given_name", VStr "") ].

Definition jwt_token_decode (token : value) : exn + value :=
  match token with
  | VStr s =>
      if String.eqb s "test-id-token" then
        inr (artifacts (list_to_map
               [ ("contactId", VStr "test-contact-id");
                 ("email", VStr "test@example.com");
                 ("given_name", VStr "Test User");
                 ("relationships", VArr []);
                 ("roles", VArr [VStr "user"]);
                 ("aal", VStr "aal2");
                 ("loa", VStr "2") ]))
      else if String.eqb s "blank-name-token" then
        inr (artifacts blank_name_claims)
      else if String.eqb s "no-claims-token" then
        inr (artifacts ∅)
      else inl (Error "Invalid token structure")
  | _ => inl (Error "Invalid token structure")
  end.

Definition cfg : config :=
  {| isProduction := false;
     host := "localhost";
     port := 3000;
     defraId_oidcDiscoveryUrl := "https://example.com/.well-known/openid-configuration";
     defraId_clientId := "test-client-id";
     defraId_clientSecret := "test-client-secret" |}.

Definition mockEndpoints : value :=
  VObj (list_to_map
    [ ("authorization_endpoint", VStr "https://example.com/authorize");
      ("token_endpoint", VStr "https://example.com/token");
      ("end_session_endpoint", VStr "https://example.com/logout");
      ("jwks_uri", VStr "https://example.com/jwks");
      ("issuer", VStr "https://example.com") ]).

Definition newTokens : value :=
  VObj (list_to_map
    [ ("access_token", VStr "new-token");
      ("refresh_token", VStr "new-refresh");
      ("expires_in", VNum 3600) ]).

Definition respond (body : value) : fetch_outcome :=
  Resolved {| ok := true; status := 200; statusText := "OK"; text := ""; json := inr body |}.

(** The identity provider is up: discovery answers with the endpoints, the
    token endpoint with new tokens. *)
Definition provider_up (n : nat) (req : fetch_request) : fetch_outcome :=
  if String.eqb (req_method req) "POST" then respond newTokens
  else respond mockEndpoints.

(** The token endpoint rejects the refresh token. *)
Definition provider_rejects (n : nat) (req : fetch_request) : fetch_outcome :=
  if String.eqb (req_method req) "POST" then
    Resolved {| ok := false; status := 400; statusText := "Bad Request";
                text := "invalid_grant"; json := inl (SyntaxError "Unexpected token") |}
  else respond mockEndpoints.

(** Discovery answers 404. *)
Definition discovery_not_found (n : nat) (req : fetch_request) : fetch_outcome :=
  Resolved {| ok := false; status := 404; statusText := "Not Found";
              text := ""; json := inl (SyntaxError "Unexpected end of JSON input") |}.

(** Nothing answers. *)
Definition provider_down (n : nat) (req : fetch_request) : fetch_outcome :=
  Rejected (TypeError "fetch failed").

(** A process that has just started, at time [now], serving a request whose
    session holds [store]. *)
Definition fresh (net : nat -> fetch_request -> fetch_outcome) (now : Z)
    (store : gmap string value) : world :=
  {| cachedOidcEndpoints := None;
     network := net;
     fetched := [];
     clock := fun _ => now;
     clock_reads := 0;
     refresh_calls := [];
     yar_store := store;
     yar_flash := ∅ |}.

Definition session_fields (expiresAt : string) (refreshToken : option string) :
    gmap string value :=
  list_to_map
    ([ ("contactId", VStr "test-contact");
       ("accessToken", VStr "old-token");
       ("expiresAt", VStr expiresAt) ]
     ++ match refreshToken with
        | Some r => [ ("refreshToken", VStr r) ]
        | None => []
        end)%list.

Definition session (expiresAt : string) (refreshToken : option string) : value :=
  VObj (session_fields expiresAt refreshToken).

Definition dashboard (mode : string) : request :=
  {| path := "/dashboard"; auth_mode := mode; auth_credentials := VUndefined |}.

(** The callback request as Bell hands it over, for an ID token. *)
Definition from_bell (token : string) : request :=
  {| path := "/auth/callback"; auth_mode := "required";
     auth_credentials :=
       VObj (list_to_map
         [ ("token", VStr token);
           ("refreshToken", VStr "test-refresh-token");
           ("expiresIn", VNum 3600) ]) |}.

Definition sign_out : request :=
  {| path := "/auth/logout"; auth_mode := "try"; auth_credentials := VUndefined |}.

Definition auth (req : request) : M reply :=
  authenticate parseISO toISOString StringToNumber cfg req.

Definition handler (req : request) : M reply :=
  callback toISOString StringToNumber jwt_token_decode req.

(** The sessions of the examples: [expires_early] expires at [t0],
    [expires_late] at [t1], an hour later. *)
Definition expires_early : string := "2025-01-01T00:00:00.000Z".
Definition expires_late : string := "2025-01-01T01:00:00.000Z".

(** No session. *)
Definition signed_out : world := fresh provider_up t0 ∅.

(** At [t0], a session good for another hour. *)
Definition in_good_time : world :=
  fresh provider_up t0 {[ "auth" := session expires_late (Some "old-refresh") ]}.

(** At [t1], a session that expired an hour ago, with a refresh token;
    the provider grants or rejects the refresh. *)
Definition overdue (net : nat -> fetch_request -> fetch_outcome) : world :=
  fresh net t1 {[ "auth" := session expires_early (Some "old-refresh") ]}.

(** The same without a refresh token. *)
Definition overdue_no_refresh_token : world :=
  fresh provider_up t1 {[ "auth" := session expires_early None ]}.

(** A session that expires in one minute to the millisecond. *)
Definition on_the_minute : world :=
  fresh provider_up (t1 - 60000) {[ "auth" := session expires_late (Some "old-refresh") ]}.

(** The world after the refresh client has answered the strategy. *)
Definition refresh_attempted (net : nat -> fetch_request -> fetch_outcome) : world :=
  snd (refreshAccessToken cfg (VStr "old-refresh") (tick (overdue net))).

(** A session while the identity provider cannot be reached. *)
Definition cut_off : world :=
  fresh provider_down t0 {[ "auth" := session expires_late (Some "old-refresh") ]}.

(** The process after its first discovery, and after a request was then
    authenticated. *)
Definition discovered : world := snd (getOidcEndpoints cfg signed_out).

Definition later : world := snd (auth (dashboard "required") discovered).

End Doubles.

(** Further fixtures, for the login request, the pages and the set-up. *)

Module Fixtures.

Import Doubles.

(** A login request's query with a login hint. *)
Definition hinted (hint : value) : value := VObj {[ "login_hint" := hint ]}.

Definition serviceId : string := "test-service-id".

Definition cookie_password : string := "test-password-must-be-at-least-32-chars".

(** The token endpoint answers without an expires_in. *)
Definition provider_sloppy (n : nat) (req : fetch_request) : fetch_outcome :=
  if String.eqb (req_method req) "POST" then
    respond (VObj {[ "access_token" := VStr "new-token" ]})
  else respond mockEndpoints.

(** A session whose expiresAt is no date. *)
Definition undated : world :=
  fresh provider_up t1 {[ "auth" := session "soon" (Some "old-refresh") ]}.

(** A session that expires on the first date a [Date] can hold, seen at
    [t1]. *)
Definition ancient : world :=
  fresh provider_up t1
    {[ "auth" := session "-271821-04-20T00:00:00.000Z" (Some "old-refresh") ]}.

(** The session after a refresh that the provider rejected. *)
Definition refused : world := snd (auth (dashboard "required") (overdue provider_rejects)).

(** The session after the strategy has turned a request for the dashboard
    away, and after a callback. *)
Definition turned_away : world := snd (auth (dashboard "required") signed_out).

Definition called_back : world := snd (handler (from_bell "test-id-token") turned_away).

(** The process once the Bell strategy is set up. *)
Definition set_up : world := snd (setupDefraIdStrategy cfg cookie_password signed_out).

End Fixtures.

(** * Properties *)

Lemma prop_defined (v : value) (k : string) (w : world) :
  nullish v = false -> prop v k w = (inr (get v k), w).
Proof. intros H. unfold prop. now rewrite H. Qed.

Lemma truthy_not_nullish (v : value) : truthy v = true -> nullish v = false.
Proof. now destruct v. Qed.

(** ** Frames: what a computation leaves alone *)

Create HintDb frame discriminated.

Lemma preserves_ret {A X} (f : world -> X) (a : A) : preserves f (ret a).
Proof. now intros w. Qed.

Lemma preserves_throw {A X} (f : world -> X) (e : exn) : preserves f (@throw A e).
Proof. now intros w. Qed.

Lemma preserves_bind {A B X} (f : world -> X) (c : M A) (k : A -> M B) :
  preserves f c -> (forall a, preserves f (k a)) -> preserves f (bind c k).
Proof.
  intros Hc Hk w. unfold bind. specialize (Hc w).
  destruct (c w) as [[e|a] w1]; simpl in *; [done|].
  now rewrite Hk.
Qed.

Lemma preserves_try_catch {A X} (f : world -> X) (c : M A) (h : exn -> M A) :
  preserves f c -> (forall e, preserves f (h e)) -> preserves f (try_catch c h).
Proof.
  intros Hc Hh w. unfold try_catch. specialize (Hc w).
  destruct (c w) as [[e|a] w1]; simpl in *; [|done].
  now rewrite Hh.
Qed.

Lemma preserves_lift {A X} (f : world -> X) (r : exn + A) : preserves f (lift r).
Proof. now destruct r. Qed.

Lemma preserves_prop {X} (f : world -> X) (v : value) (k : string) :
  preserves f (prop v k).
Proof. intros w. unfold prop. now destruct (nullish v). Qed.

Lemma preserves_if {A X} (f : world -> X) (b : bool) (c d : M A) :
  preserves f c -> preserves f d -> preserves f (if b then c else d).
Proof. now destruct b. Qed.

Lemma preserves_response_json {X} (f : world -> X) (r : nat * response) :
  preserves f (response_json r).
Proof. intros w. unfold response_json. now destruct (json (snd r)). Qed.

Lemma preserves_cache_get {X} (f : world -> X) : preserves f cache_get.
Proof. now intros w. Qed.

#[export] Hint Resolve preserves_ret preserves_throw preserves_lift preserves_prop
  preserves_if preserves_response_json preserves_cache_get : frame.

Lemma fetch_frame {X} (f : world -> X) (req : fetch_request) :
  (forall l w, f (set_fetched l w) = f w) -> preserves f (fetch req).
Proof.
  intros Hf w. unfold fetch.
  destruct (network w (length (fetched w)) req); simpl; apply Hf.
Qed.

Lemma cache_set_frame {X} (f : world -> X) (p : parsed) :
  (forall c w, f (set_cachedOidcEndpoints c w) = f w) -> preserves f (cache_set p).
Proof. intros Hf w. apply Hf. Qed.

Ltac frame :=
  repeat first
    [ apply preserves_bind; [|intros ?]
    | apply preserves_try_catch; [|intros ?]
    | apply preserves_if
    | apply fetch_frame; now intros
    | apply cache_set_frame; now intros
    | now auto with frame
    | match goal with |- preserves _ (match ?x with _ => _ end) => destruct x end ].

(** ** Discovery cache *)

(** With endpoints cached the call returns them and touches nothing. *)
Lemma getOidcEndpoints_cached (cfg : config) (w : world) (p : parsed) :
  cachedOidcEndpoints w = Some p ->
  truthy (content p) = true ->
  getOidcEndpoints cfg w = (inr p, w).
Proof.
  intros Hc Ht. unfold getOidcEndpoints, bind, cache_get. rewrite Hc. now rewrite Ht.
Qed.

(** Without, it makes the discovery request; what it returns and what it
    stores follows the answer. *)
Lemma getOidcEndpoints_discovers (cfg : config) (w : world) :
  cache_truthy (cachedOidcEndpoints w) = false ->
  getOidcEndpoints cfg w =
    let n := length (fetched w) in
    let w1 := requested (discovery_request cfg) w in
    match network w n (discovery_request cfg) with
    | Rejected e =>
        (inl (Error ("Failed to fetch OIDC configuration: " +:+ message e)), w1)
    | Resolved r =>
        if ok r then
          match json r with
          | inr v => (inr (Parsed n v), set_cachedOidcEndpoints (Some (Parsed n v)) w1)
          | inl e =>
              (inl (Error ("Failed to fetch OIDC configuration: " +:+ message e)), w1)
          end
        else
          (inl (Error ("Failed to fetch OIDC configuration: "
                       +:+ ("OIDC discovery failed: " +:+ pretty (status r)
                            +:+ " " +:+ statusText r))), w1)
    end.
Proof.
  intros Hc. unfold getOidcEndpoints, bind at 1, cache_get.
  assert (forall d : M parsed,
            match cachedOidcEndpoints w with
            | Some p => if truthy (content p) then ret p else d
            | None => d
            end = d) as ->.
  { intros d. unfold cache_truthy in Hc.
    destruct (cachedOidcEndpoints w) as [p|]; [now rewrite Hc|done]. }
  unfold try_catch, bind, fetch, discovery_request, requested.
  destruct (network w _ _) as [e|r]; simpl; [reflexivity|].
  destruct (ok r); simpl; [|reflexivity].
  unfold response_json. simpl. destruct (json r); reflexivity.
Qed.

(** A successful call leaves what it returned in the cache. *)
Lemma getOidcEndpoints_caches (cfg : config) (w w1 : world) (p : parsed) :
  getOidcEndpoints cfg w = (inr p, w1) -> truthy (content p) = true -> caches p w1.
Proof.
  intros H Ht. destruct (cache_truthy (cachedOidcEndpoints w)) eqn:Hc.
  - unfold cache_truthy in Hc. destruct (cachedOidcEndpoints w) as [q|] eqn:Hq; [|done].
    rewrite (getOidcEndpoints_cached cfg w q Hq Hc) in H. now inversion H; subst.
  - rewrite (getOidcEndpoints_discovers cfg w Hc) in H. cbv zeta in H.
    destruct (network w _ _) as [e|r]; [done|].
    destruct (ok r); [|done]. destruct (json r) as [e|v]; [done|].
    now inversion H.
Qed.

(** Discovery leaves the session, the clock and the record of refresh calls
    alone. *)
Lemma getOidcEndpoints_yar_store cfg : preserves yar_store (getOidcEndpoints cfg).
Proof. unfold getOidcEndpoints. frame. Qed.

Lemma getOidcEndpoints_yar_flash cfg : preserves yar_flash (getOidcEndpoints cfg).
Proof. unfold getOidcEndpoints. frame. Qed.

Lemma getOidcEndpoints_refresh_calls cfg : preserves refresh_calls (getOidcEndpoints cfg).
Proof. unfold getOidcEndpoints. frame. Qed.

Lemma getOidcEndpoints_clock_reads cfg : preserves clock_reads (getOidcEndpoints cfg).
Proof. unfold getOidcEndpoints. frame. Qed.

#[export] Hint Resolve getOidcEndpoints_yar_store getOidcEndpoints_yar_flash
  getOidcEndpoints_refresh_calls getOidcEndpoints_clock_reads : frame.

(** The refresh client leaves the session and the clock alone, and each call
    of it is recorded once. *)
Lemma note_refresh_call_frame {X} (f : world -> X) (v : value) :
  (forall l w, f (set_refresh_calls l w) = f w) -> preserves f (note_refresh_call v).
Proof. intros Hf w. apply Hf. Qed.

Ltac refresh_frame :=
  unfold refreshAccessToken;
  apply preserves_bind; [now apply note_refresh_call_frame|];
  intros _; frame.

Lemma refreshAccessToken_yar_store cfg rt :
  preserves yar_store (refreshAccessToken cfg rt).
Proof. refresh_frame. Qed.

Lemma refreshAccessToken_yar_flash cfg rt :
  preserves yar_flash (refreshAccessToken cfg rt).
Proof. refresh_frame. Qed.

Lemma refreshAccessToken_clock_reads cfg rt :
  preserves clock_reads (refreshAccessToken cfg rt).
Proof. refresh_frame. Qed.

Lemma refreshAccessToken_recorded cfg rt w :
  refresh_calls (snd (refreshAccessToken cfg rt w)) = (refresh_calls w ++ [rt])%list.
Proof.
  unfold refreshAccessToken.
  match goal with |- context [bind _ ?k] => set (rest := k) end.
  assert (Hrest : preserves refresh_calls (rest tt)) by (subst rest; simpl; frame).
  unfold bind, note_refresh_call. apply Hrest.
Qed.

(** ** The expiry check *)

Lemma tokenHasExpired_early (t now : Z) :
  Z.abs (t - 60000) <= max_time -> t < now + 60000 ->
  tokenHasExpired (Some t) now = true.
Proof.
  intros Hr Ht. unfold tokenHasExpired, subMinutes, TimeClip.
  replace (t - 1 * 60000) with (t - 60000) by lia.
  destruct (Z.leb_spec (Z.abs (t - 60000)) max_time); [|lia].
  apply Z.ltb_lt. lia.
Qed.

Lemma tokenHasExpired_late (t now : Z) :
  now + 60000 <= t -> tokenHasExpired (Some t) now = false.
Proof.
  intros Ht. unfold tokenHasExpired, subMinutes, TimeClip.
  destruct (Z.abs (t - 1 * 60000) <=? max_time); [|reflexivity].
  apply Z.ltb_ge. lia.
Qed.

(** Before the first minute a [Date] can hold there is no date: the check
    then finds nothing expired. *)
Lemma tokenHasExpired_clipped (t now : Z) :
  max_time < Z.abs (t - 60000) -> tokenHasExpired (Some t) now = false.
Proof.
  intros Hr. unfold tokenHasExpired, subMinutes, TimeClip.
  replace (t - 1 * 60000) with (t - 60000) by lia.
  now destruct (Z.leb_spec (Z.abs (t - 60000)) max_time); [lia|].
Qed.

Section Strategy.

Variable parseISO : value -> exn + option Z.
Variable toISOString : Z -> string.
Variable StringToNumber : string -> option Z.
Variable cfg : config.

Local Abbreviation strategy := (authenticate parseISO toISOString StringToNumber cfg).
Local Abbreviation refresh_session := (refresh_session toISOString StringToNumber cfg).

(** What the strategy does in the NoSession state. *)
Lemma authenticate_no_session (req : request) (w : world) :
  yar_store w !! "auth" = None ->
  strategy req w =
    if lenient (auth_mode req)
    then (inr (Authenticated (VObj ∅)), w)
    else (inr (RedirectTakeover (VStr "/auth/login")), marked (path req) w).
Proof.
  intros H. unfold authenticate, bind, yar_get, lenient. rewrite H. simpl.
  now destruct (String.eqb (auth_mode req) "try" || String.eqb (auth_mode req) "optional").
Qed.

(** C5.  With no session record under the 'auth' key: in mode 'required' the
    request path is recorded as the pending-redirect marker and the reply is
    a redirect to /auth/login that takes over the request; in mode 'try' or
    'optional' the request proceeds with empty credentials and the session,
    its flash messages included, is left as it was. *)
Theorem no_session_behaviour (req : request) (w : world) :
  yar_store w !! "auth" = None ->
  (auth_mode req = "required" ->
     strategy req w =
       (inr (RedirectTakeover (VStr "/auth/login")), marked (path req) w)
     /\ yar_flash (marked (path req) w) !! "redirect"
        = Some ((default [] (yar_flash w !! "redirect")) ++ [VStr (path req)])%list)
  /\ (auth_mode req = "try" \/ auth_mode req = "optional" ->
     strategy req w = (inr (Authenticated (VObj ∅)), w)).
Proof.
  intros H. rewrite (authenticate_no_session req w H). split.
  - intros ->. split; [reflexivity|]. unfold marked. simpl.
    now rewrite lookup_insert_eq.
  - now intros [-> | ->].
Qed.

(** A session is used as it stands unless it has expired and carries a
    refresh token. *)
Lemma authenticate_as_stored (req : request) (w : world) (s : value) (date : option Z) :
  yar_store w !! "auth" = Some s ->
  truthy s = true ->
  parseISO (get s "expiresAt") = inr date ->
  tokenHasExpired date (clock w (clock_reads w)) && truthy (get s "refreshToken") = false ->
  strategy req w = (inr (Authenticated s), tick w).
Proof.
  intros Hs Ht Hp Hc.
  unfold authenticate, bind, yar_get. rewrite Hs. simpl. rewrite Ht. simpl.
  rewrite (prop_defined _ _ _ (truthy_not_nullish _ Ht)), Hp. simpl.
  unfold isPast, bind, Date_now, ret. simpl.
  rewrite (prop_defined _ _ _ (truthy_not_nullish _ Ht)).
  unfold tokenHasExpired in Hc. now rewrite Hc.
Qed.

(** C4.  A session record whose expiresAt lies strictly more than one minute
    after the reading of Date.now() is the credentials the request proceeds
    with, whatever the mode; the Token Refresh Client is not invoked, no
    request goes out, and the session is left as it was. *)
Theorem valid_session_no_refresh (req : request) (w : world)
    (o : gmap string value) (t : Z) :
  yar_store w !! "auth" = Some (VObj o) ->
  parseISO (get (VObj o) "expiresAt") = inr (Some t) ->
  clock w (clock_reads w) + 60000 < t ->
  exists w',
    strategy req w = (inr (Authenticated (VObj o)), w')
    /\ refresh_calls w' = refresh_calls w
    /\ fetched w' = fetched w
    /\ yar_store w' = yar_store w
    /\ yar_flash w' = yar_flash w.
Proof.
  intros Hs Hp Ht. exists (tick w). split; [|done].
  apply (authenticate_as_stored req w (VObj o) (Some t)); try done.
  now rewrite tokenHasExpired_late by lia.
Qed.

Lemma authenticate_expired (req : request) (w : world) (s : value) (date : option Z) :
  yar_store w !! "auth" = Some s ->
  truthy s = true ->
  parseISO (get s "expiresAt") = inr date ->
  tokenHasExpired date (clock w (clock_reads w)) && truthy (get s "refreshToken") = true ->
  strategy req w = try_catch (refresh_session s) (refresh_failed req) (tick w).
Proof.
  intros Hs Ht Hp Hc.
  unfold authenticate, bind, yar_get. rewrite Hs. simpl. rewrite Ht. simpl.
  rewrite (prop_defined _ _ _ (truthy_not_nullish _ Ht)), Hp. simpl.
  unfold isPast, bind, Date_now, ret. simpl.
  rewrite (prop_defined _ _ _ (truthy_not_nullish _ Ht)).
  unfold tokenHasExpired in Hc. now rewrite Hc.
Qed.

(** The [catch] block does what the NoSession state does, on the world
    without the session record. *)
Lemma refresh_failed_no_session (req : request) (e : exn) (w : world) :
  refresh_failed req e w = strategy req (cleared w).
Proof.
  rewrite authenticate_no_session by (unfold cleared; simpl; apply lookup_delete_eq).
  unfold refresh_failed, bind, yar_clear, lenient. fold (cleared w).
  now destruct (String.eqb (auth_mode req) "try" || String.eqb (auth_mode req) "optional").
Qed.

(** C3.  An expired session with a refresh token whose refresh fails, with
    whatever error: the session record is cleared and the strategy then does
    exactly what it does in the NoSession state for the mode: in mode
    'required' it records the request path as the pending-redirect marker and
    redirects to /auth/login, in mode 'try' or 'optional' it proceeds with
    empty credentials.  The refresh client was called once.  A refresh is
    attempted when isPast(subMinutes(expiresAt, 1)) holds: expiresAt less one
    minute is a date, and it lies before the reading of Date.now(). *)
Theorem refresh_failure_falls_back (req : request) (w w2 : world)
    (o : gmap string value) (t : Z) (e : exn) :
  yar_store w !! "auth" = Some (VObj o) ->
  parseISO (get (VObj o) "expiresAt") = inr (Some t) ->
  Z.abs (t - 60000) <= max_time ->
  t < clock w (clock_reads w) + 60000 ->
  truthy (get (VObj o) "refreshToken") = true ->
  refreshAccessToken cfg (get (VObj o) "refreshToken") (tick w) = (inl e, w2) ->
  strategy req w = strategy req (cleared w2)
  /\ yar_store (cleared w2) !! "auth" = None
  /\ (auth_mode req = "required" ->
        strategy req w =
          (inr (RedirectTakeover (VStr "/auth/login")), marked (path req) (cleared w2))
        /\ yar_store (marked (path req) (cleared w2)) !! "auth" = None
        /\ yar_flash (marked (path req) (cleared w2)) !! "redirect"
           = Some ((default [] (yar_flash w !! "redirect")) ++ [VStr (path req)])%list)
  /\ (auth_mode req = "try" \/ auth_mode req = "optional" ->
        strategy req w = (inr (Authenticated (VObj ∅)), cleared w2))
  /\ refresh_calls (cleared w2) = (refresh_calls w ++ [get (VObj o) "refreshToken"])%list.
Proof.
  intros Hs Hp Hd Ht Hr Hf.
  assert (Hrun : strategy req w = strategy req (cleared w2)).
  { rewrite (authenticate_expired req w (VObj o) (Some t)); try done.
    - unfold try_catch, refresh_session, bind at 1. rewrite Hf.
      apply refresh_failed_no_session.
    - now rewrite Hr, tokenHasExpired_early. }
  assert (Hnone : yar_store (cleared w2) !! "auth" = None)
    by (unfold cleared; simpl; apply lookup_delete_eq).
  assert (Hflash : yar_flash w2 = yar_flash w).
  { pose proof (refreshAccessToken_yar_flash cfg (get (VObj o) "refreshToken") (tick w)) as H.
    now rewrite Hf in H. }
  split; [done|]. split; [done|].
  rewrite Hrun, (authenticate_no_session req _ Hnone). unfold lenient.
  split; [|split].
  - intros ->. split; [done|]. split; [done|].
    unfold marked, cleared. simpl. now rewrite lookup_insert_eq, Hflash.
  - now intros [-> | ->].
  - pose proof (refreshAccessToken_recorded cfg (get (VObj o) "refreshToken") (tick w)) as H.
    now rewrite Hf in H.
Qed.

(** The [try] block and the [catch] block of the strategy call the refresh
    client once between them, whatever comes of the call. *)
Lemma refresh_attempt_recorded (req : request) (s : value) (w : world) :
  refresh_calls (snd (try_catch (refresh_session s) (refresh_failed req) w))
  = (refresh_calls w ++ [get s "refreshToken"])%list.
Proof.
  unfold refresh_session.
  match goal with |- context [bind _ ?k] => set (rest := k) end.
  assert (Hrest : forall newTokens,
            preserves refresh_calls (try_catch (rest newTokens) (refresh_failed req))).
  { intros newTokens. subst rest. unfold refresh_failed, Date_now, Date_toISOString,
      yar_set, yar_clear, yar_flash_add.
    apply preserves_try_catch; [|intros ?]; frame; now intros ?. }
  assert (Hfail : forall e, preserves refresh_calls (refresh_failed req e)).
  { intros e. unfold refresh_failed, yar_clear, yar_flash_add. frame; now intros ?. }
  pose proof (refreshAccessToken_recorded cfg (get s "refreshToken") w) as Hc.
  unfold try_catch, bind at 1.
  destruct (refreshAccessToken cfg (get s "refreshToken") w) as [[e|newTokens] w2];
    simpl in Hc.
  - now rewrite Hfail.
  - specialize (Hrest newTokens w2). unfold try_catch in Hrest. now rewrite Hrest.
Qed.

(** C2, amended.  A session record with a refresh token whose expiresAt less
    one minute is a date and lies strictly before the reading of Date.now():
    the Token Refresh Client is called exactly once, with that token, whatever
    comes of the call; and when it answers with a token response whose
    expires_in is a number of seconds, the record persisted under 'auth' has
    accessToken, refreshToken and expiresAt from the response (expiresAt being
    the ISO form of the reading of Date.now() taken after the refresh plus
    expires_in * 1000 ms), has every other field as the prior record had it,
    and is the credentials the request proceeds with. *)
Theorem refresh_success_replaces_tokens (req : request) (w : world)
    (o : gmap string value) (t : Z) :
  yar_store w !! "auth" = Some (VObj o) ->
  parseISO (get (VObj o) "expiresAt") = inr (Some t) ->
  Z.abs (t - 60000) <= max_time ->
  t < clock w (clock_reads w) + 60000 ->
  truthy (get (VObj o) "refreshToken") = true ->
  refresh_calls (snd (strategy req w))
  = (refresh_calls w ++ [get (VObj o) "refreshToken"])%list
  /\ forall (w2 : world) (n : Z) (newTokens : value),
       refreshAccessToken cfg (get (VObj o) "refreshToken") (tick w) = (inr newTokens, w2) ->
       nullish newTokens = false ->
       to_number StringToNumber (get newTokens "expires_in") = Some n ->
       Z.abs (clock w2 (clock_reads w2) + n * 1000) <= max_time ->
       let iso := toISOString (clock w2 (clock_reads w2) + n * 1000) in
       let record := updated o newTokens iso in
       exists w3,
         strategy req w = (inr (Authenticated (VObj record)), w3)
         /\ yar_store w3 !! "auth" = Some (VObj record)
         /\ (forall k, k <> "accessToken" -> k <> "refreshToken" -> k <> "expiresAt" ->
               record !! k = o !! k)
         /\ record !! "accessToken" = Some (get newTokens "access_token")
         /\ record !! "refreshToken" = Some (get newTokens "refresh_token")
         /\ record !! "expiresAt" = Some (VStr iso).
Proof.
  intros Hs Hp Hd Ht Hr.
  assert (Hrun : strategy req w
                 = try_catch (refresh_session (VObj o)) (refresh_failed req) (tick w)).
  { apply (authenticate_expired req w (VObj o) (Some t)); try done.
    now rewrite Hr, tokenHasExpired_early. }
  split; [rewrite Hrun; apply (refresh_attempt_recorded req (VObj o) (tick w))|].
  intros w2 n newTokens Hf Hn He Hrange iso record.
  exists (set_yar_store (<["auth" := VObj record]> (yar_store w2)) (tick w2)).
  split; [|split; [|split; [|split; [|split]]]].
  - rewrite Hrun.
    unfold try_catch, refresh_session, bind at 1. rewrite Hf.
    unfold bind at 1. rewrite (prop_defined _ _ _ Hn).
    unfold bind at 1. rewrite (prop_defined _ _ _ Hn).
    unfold bind at 1, Date_now. fold (tick w2).
    unfold bind at 1. rewrite (prop_defined _ _ _ Hn).
    rewrite He. cbn [num_mul num_add]. unfold bind at 1, Date_toISOString.
    assert ((Z.abs (clock w2 (clock_reads w2) + n * 1000) <=? max_time) = true) as ->
      by (apply Z.leb_le; lia).
    reflexivity.
  - simpl. apply lookup_insert_eq.
  - intros k Ha Hb Hc. unfold record, updated.
    now rewrite !lookup_insert_ne by done.
  - unfold record, updated. rewrite !lookup_insert_ne by done. apply lookup_insert_eq.
  - unfold record, updated. rewrite lookup_insert_ne by done. apply lookup_insert_eq.
  - unfold record, updated. apply lookup_insert_eq.
Qed.

(** An expired session without a refresh token, as the code treats it.  A
    session record whose expiresAt is at or before (now + 1 minute) and which
    has no refresh token is not cleared: the strategy proceeds with the stored
    record as credentials in every mode, without invoking the Token Refresh
    Client, and leaves the session and its flash messages as they were. *)
Theorem expired_without_refresh_token_kept (req : request) (w : world)
    (o : gmap string value) (t : Z) :
  yar_store w !! "auth" = Some (VObj o) ->
  parseISO (get (VObj o) "expiresAt") = inr (Some t) ->
  t <= clock w (clock_reads w) + 60000 ->
  truthy (get (VObj o) "refreshToken") = false ->
  exists w',
    strategy req w = (inr (Authenticated (VObj o)), w')
    /\ yar_store w' = yar_store w
    /\ yar_flash w' = yar_flash w
    /\ refresh_calls w' = refresh_calls w
    /\ fetched w' = fetched w.
Proof.
  intros Hs Hp Ht Hr. exists (tick w). split; [|done].
  apply (authenticate_as_stored req w (VObj o) (Some t)); try done.
  rewrite Hr. apply andb_false_r.
Qed.

End Strategy.

(** ** Callback and logout *)

Section Controller.

Variable toISOString : Z -> string.
Variable StringToNumber : string -> option Z.
Variable jwt_token_decode : value -> exn + value.
Variable cfg : config.

Local Abbreviation handler := (callback toISOString StringToNumber jwt_token_decode).

(** The callback, case by case. *)
Lemma callback_cases (req : request) (w : world) :
  handler req w =
    let credentials := auth_credentials req in
    if nullish credentials then (inl (cannot_read credentials "token"), w) else
    match jwt_token_decode (get credentials "token") with
    | inl e => (inl e, w)
    | inr decoded =>
        if nullish decoded then (inl (cannot_read decoded "decoded"), w) else
        let artifacts := get decoded "decoded" in
        if nullish artifacts then (inl (cannot_read artifacts "payload"), w) else
        let claims := get artifacts "payload" in
        if nullish claims then (inl (cannot_read claims "contactId"), w) else
        match to_number StringToNumber (get credentials "expiresIn") with
        | Some n =>
            let t := clock w (clock_reads w) + n * 1000 in
            if Z.abs t <=? max_time then
              (inr (Redirect (pending_redirect w)),
               signed_in (session_record claims credentials (toISOString t)) w)
            else (inl (RangeError "Invalid time value"), tick w)
        | None => (inl (RangeError "Invalid time value"), tick w)
        end
    end.
Proof.
  unfold callback, try_catch, cannot_read. cbv zeta.
  unfold bind at 1, prop at 1.
  destruct (nullish (auth_credentials req)) eqn:Hc; [reflexivity|].
  cbn [ret]. unfold bind at 1, lift.
  destruct (jwt_token_decode _) as [e|decoded]; [reflexivity|].
  cbn [ret]. unfold bind at 1, prop at 1.
  destruct (nullish decoded) eqn:Hd; [reflexivity|].
  cbn [ret]. unfold bind at 1, prop at 1.
  destruct (nullish (get decoded "decoded")) eqn:Ha; [reflexivity|].
  cbn [ret]. unfold bind at 1, prop at 1.
  destruct (nullish (get (get decoded "decoded") "payload")) eqn:Hp; [reflexivity|].
  cbn [ret]. unfold bind, prop, Date_now, Date_toISOString. rewrite Hc, Hp. simpl.
  destruct (to_number _ _) as [n|]; simpl; [|reflexivity].
  destruct (Z.abs _ <=? max_time); reflexivity.
Qed.

(** C6, amended.  After every successful callback the record persisted under
    'auth' has displayName = given_name || email: the given_name claim when
    it is truthy, and the email claim when given_name is absent, null or the
    empty string. *)
Theorem callback_displayName (req : request) (w w' : world) (r : reply) :
  handler req w = (inr r, w') ->
  exists decoded,
    jwt_token_decode (get (auth_credentials req) "token") = inr decoded
    /\ let claims := get (get decoded "decoded") "payload" in
       exists record,
         yar_store w' !! "auth" = Some (VObj record)
         /\ record !! "displayName"
            = Some (or_else (get claims "given_name") (get claims "email"))
         /\ (truthy (get claims "given_name") = true ->
               record !! "displayName" = Some (get claims "given_name"))
         /\ (truthy (get claims "given_name") = false ->
               record !! "displayName" = Some (get claims "email")).
Proof.
  rewrite callback_cases. cbv zeta.
  destruct (nullish (auth_credentials req)); [discriminate|].
  destruct (jwt_token_decode _) as [e|decoded]; [discriminate|].
  destruct (nullish decoded); [discriminate|].
  destruct (nullish (get decoded "decoded")); [discriminate|].
  destruct (nullish (get (get decoded "decoded") "payload")); [discriminate|].
  destruct (to_number _ _) as [n|]; [|discriminate].
  destruct (Z.abs _ <=? max_time); [|discriminate].
  intros [= <- <-]. exists decoded. split; [reflexivity|].
  eexists. split; [apply lookup_insert_eq|].
  assert (Hd : forall c cr iso,
             session_record c cr iso !! "displayName"
             = Some (or_else (get c "given_name") (get c "email"))).
  { intros. unfold session_record. cbn [list_to_map foldr fst snd uncurry].
    rewrite !lookup_insert_ne by done. apply lookup_insert_eq. }
  rewrite Hd. unfold or_else. split; [done|].
  split; now intros ->.
Qed.


(** The post-logout redirect URI, spelled out. *)
Lemma postLogoutUri_port :
  let scheme := if isProduction cfg then "https" else "http" in
  (port cfg = 80 \/ port cfg = 443 ->
     postLogoutUri cfg = scheme +:+ "://" +:+ host cfg)
  /\ (port cfg <> 80 -> port cfg <> 443 ->
       postLogoutUri cfg = scheme +:+ "://" +:+ host cfg +:+ ":" +:+ pretty (port cfg)).
Proof.
  unfold postLogoutUri. split.
  - intros [-> | ->]; reflexivity.
  - intros H1 H2. apply Z.eqb_neq in H1, H2. now rewrite H1, H2.
Qed.

(** Clearing a session that is not there changes nothing. *)
Lemma cleared_absent (w : world) : yar_store w !! "auth" = None -> cleared w = w.
Proof.
  intros H. unfold cleared. rewrite delete_id by done. now destruct w.
Qed.

Lemma logout_runs (req : request) (w w1 : world) (p : parsed) :
  getOidcEndpoints cfg (cleared w) = (inr p, w1) ->
  nullish (content p) = false ->
  logout cfg req w = (inr (logout_reply cfg p), w1).
Proof.
  intros Hd Hn.
  unfold logout, clearSessionValue, bind at 1, yar_clear. fold (cleared w).
  unfold bind at 1. rewrite Hd. unfold bind. now rewrite (prop_defined _ _ _ Hn).
Qed.

(** A logout for which discovery yields an endpoint document redirects to
    <end_session_endpoint>?post_logout_redirect_uri=<encoded-uri>, the encoded
    URI being the percent-encoding of scheme://host with :port appended
    exactly when the port is neither 80 nor 443; logging out again gives the
    same redirect and changes nothing. *)
Lemma logout_with_endpoints (req : request) (w w1 : world) (p : parsed) :
  getOidcEndpoints cfg (cleared w) = (inr p, w1) ->
  truthy (content p) = true ->
  let scheme := if isProduction cfg then "https" else "http" in
  let uri :=
    if bool_decide (port cfg = 80 \/ port cfg = 443)
    then scheme +:+ "://" +:+ host cfg
    else scheme +:+ "://" +:+ host cfg +:+ ":" +:+ pretty (port cfg) in
  let location :=
    VStr (to_string (get (content p) "end_session_endpoint")
          +:+ "?post_logout_redirect_uri=" +:+ encodeURIComponent uri) in
  logout cfg req w = (inr (Redirect location), w1)
  /\ yar_store w1 !! "auth" = None
  /\ logout cfg req w1 = (inr (Redirect location), w1).
Proof.
  intros Hd Ht scheme uri location.
  assert (Huri : postLogoutUri cfg = uri).
  { subst uri scheme. destruct postLogoutUri_port as [H1 H2]. cbv zeta in H1, H2.
    case_bool_decide as Hp; [now apply H1|].
    apply H2; intros E; apply Hp; auto. }
  assert (Hreply : logout_reply cfg p = Redirect location).
  { unfold logout_reply. now rewrite Huri. }
  assert (Hgone : yar_store w1 !! "auth" = None).
  { pose proof (getOidcEndpoints_yar_store cfg (cleared w)) as H.
    rewrite Hd in H. simpl in H. rewrite H. apply lookup_delete_eq. }
  pose proof (truthy_not_nullish _ Ht) as Hn.
  rewrite <- Hreply. split; [|split; [done|]].
  - now apply logout_runs.
  - apply logout_runs; [|done]. rewrite (cleared_absent w1 Hgone).
    apply getOidcEndpoints_cached; [|done].
    now apply (getOidcEndpoints_caches cfg (cleared w)).
Qed.

(** Whatever discovery does, the session record is gone after logout. *)
Lemma logout_clears (req : request) (w : world) :
  yar_store (snd (logout cfg req w)) !! "auth" = None.
Proof.
  assert (H : preserves yar_store
                (let* oidcEndpoints := getOidcEndpoints cfg in
                 let* e := prop (content oidcEndpoints) "end_session_endpoint" in
                 ret (Redirect (VStr (to_string e +:+ "?post_logout_redirect_uri="
                                      +:+ encodeURIComponent (postLogoutUri cfg))))))
    by frame.
  unfold logout, clearSessionValue, bind at 1, yar_clear.
  rewrite H. apply lookup_delete_eq.
Qed.

End Controller.

(** C10.  A call of getOidcEndpoints that fails found the cache unset, got
    from the network a rejection, a response that is not ok, or a body that
    does not parse, and leaves the cache as it was: the world differs only by
    the request made.  The next call therefore makes the discovery request
    again. *)
Theorem discovery_failure_not_cached (cfg : config) (w w' : world) (e : exn) :
  getOidcEndpoints cfg w = (inl e, w') ->
  cache_truthy (cachedOidcEndpoints w) = false
  /\ match network w (length (fetched w)) (discovery_request cfg) with
     | Rejected _ => True
     | Resolved r => ok r = false \/ exists e', json r = inl e'
     end
  /\ w' = requested (discovery_request cfg) w
  /\ cachedOidcEndpoints w' = cachedOidcEndpoints w
  /\ fetched (snd (getOidcEndpoints cfg w'))
     = (fetched w' ++ [discovery_request cfg])%list.
Proof.
  intros H.
  assert (Hc : cache_truthy (cachedOidcEndpoints w) = false).
  { destruct (cache_truthy (cachedOidcEndpoints w)) eqn:Hc; [|done].
    unfold cache_truthy in Hc. destruct (cachedOidcEndpoints w) as [p|] eqn:Hp; [|done].
    now rewrite (getOidcEndpoints_cached cfg w p Hp Hc) in H. }
  split; [done|].
  rewrite (getOidcEndpoints_discovers cfg w Hc) in H. cbv zeta in H.
  assert (Hw : w' = requested (discovery_request cfg) w
               /\ match network w (length (fetched w)) (discovery_request cfg) with
                  | Rejected _ => True
                  | Resolved r => ok r = false \/ exists e', json r = inl e'
                  end).
  { destruct (network w _ _) as [e0|r]; [now inversion H|].
    destruct (ok r); [|inversion H; auto].
    destruct (json r) as [e0|v]; [inversion H; eauto|discriminate]. }
  destruct Hw as [-> Hnet]. split; [done|]. split; [done|]. split; [done|].
  rewrite getOidcEndpoints_discovers by exact Hc. cbv zeta.
  clear H Hnet. set (w1 := requested (discovery_request cfg) w).
  destruct (network w1 (length (fetched w1)) (discovery_request cfg)) as [e0|r];
    [reflexivity|].
  destruct (ok r); [|reflexivity]. destruct (json r); reflexivity.
Qed.

(** ** The life of the process *)

Lemma stable_bind {A B} (P : world -> Prop) (c : M A) (k : A -> M B) :
  stable P c -> (forall a, stable P (k a)) -> stable P (bind c k).
Proof.
  intros Hc Hk w Hw. unfold bind. specialize (Hc w Hw).
  destruct (c w) as [[e|a] w1]; simpl in *; [done|].
  now apply Hk.
Qed.

Lemma stable_try_catch {A} (P : world -> Prop) (c : M A) (h : exn -> M A) :
  stable P c -> (forall e, stable P (h e)) -> stable P (try_catch c h).
Proof.
  intros Hc Hh w Hw. unfold try_catch. specialize (Hc w Hw).
  destruct (c w) as [[e|a] w1]; simpl in *; [|done].
  now apply Hh.
Qed.

Lemma stable_if {A} (P : world -> Prop) (b : bool) (c d : M A) :
  stable P c -> stable P d -> stable P (if b then c else d).
Proof. now destruct b. Qed.

Lemma stable_of_preserves {A} (p : parsed) (c : M A) :
  preserves cachedOidcEndpoints c -> stable (caches p) c.
Proof. intros Hc w Hw. unfold caches. now rewrite Hc. Qed.

Lemma getOidcEndpoints_stable (cfg : config) (p : parsed) :
  truthy (content p) = true -> stable (caches p) (getOidcEndpoints cfg).
Proof. intros Ht w Hw. now rewrite (getOidcEndpoints_cached cfg w p Hw Ht). Qed.

Ltac untouched := intros ?; reflexivity.

Ltac stable :=
  cbv beta zeta;
  repeat first
    [ apply getOidcEndpoints_stable; assumption
    | match goal with H : forall _, stable _ _ |- _ => apply H end
    | apply stable_bind; [|intros ?; cbv beta zeta]
    | apply stable_try_catch; [|intros ?; cbv beta zeta]
    | apply stable_if
    | apply stable_of_preserves;
        first [ untouched
              | apply fetch_frame; now intros
              | now auto with frame ]
    | match goal with
      | |- stable _ (match ?x with _ => _ end) => destruct x
      end ].

Section Process.

Variable parseISO : value -> exn + option Z.
Variable toISOString : Z -> string.
Variable StringToNumber : string -> option Z.
Variable jwt_token_decode : value -> exn + value.
Variable cfg : config.

Local Abbreviation step := (step parseISO toISOString StringToNumber jwt_token_decode cfg).

Lemma refreshAccessToken_stable (p : parsed) (rt : value) :
  truthy (content p) = true -> stable (caches p) (refreshAccessToken cfg rt).
Proof. intros Ht. unfold refreshAccessToken. stable. Qed.

Lemma authenticate_stable (p : parsed) (req : request) :
  truthy (content p) = true ->
  stable (caches p) (authenticate parseISO toISOString StringToNumber cfg req).
Proof.
  intros Ht. pose proof (fun rt => refreshAccessToken_stable p rt Ht) as Hr.
  unfold authenticate, isPast, Date_toISOString. stable.
Qed.

Lemma callback_stable (p : parsed) (req : request) :
  stable (caches p) (callback toISOString StringToNumber jwt_token_decode req).
Proof. unfold callback, Date_toISOString, setSessionValue. stable. Qed.

Lemma logout_stable (p : parsed) (req : request) :
  truthy (content p) = true -> stable (caches p) (logout cfg req).
Proof. intros Ht. unfold logout, clearSessionValue. stable. Qed.

Lemma step_caches (p : parsed) (w w' : world) :
  truthy (content p) = true -> step w w' -> caches p w -> caches p w'.
Proof.
  intros Ht Hs Hw. destruct Hs.
  - now apply getOidcEndpoints_stable.
  - now apply refreshAccessToken_stable.
  - now apply authenticate_stable.
  - now apply callback_stable.
  - now apply logout_stable.
  - exact Hw.
Qed.

(** C9.  Once a call of getOidcEndpoints has returned an endpoint object,
    every later call, whatever the process has done in between, returns that
    same object (the parse of the same response) and changes nothing: no new
    request goes out. *)
Theorem discovery_cached_for_life (w w1 w2 : world) (p : parsed) :
  getOidcEndpoints cfg w = (inr p, w1) ->
  truthy (content p) = true ->
  rtc step w1 w2 ->
  getOidcEndpoints cfg w2 = (inr p, w2)
  /\ fetched (snd (getOidcEndpoints cfg w2)) = fetched w2.
Proof.
  intros H Ht Hsteps.
  assert (Hc : caches p w2).
  { apply (getOidcEndpoints_caches cfg w) in H; [|done].
    induction Hsteps as [|x y z Hxy _ IH]; [done|].
    apply IH. now apply (step_caches p x y). }
  now rewrite (getOidcEndpoints_cached cfg w2 p Hc Ht).
Qed.

End Process.

(** * Further properties *)

(** ** Trimming *)

Module TrimFacts.

Import JSString.

Lemma drop_prefix_app (p l r : list Ascii.ascii) :
  drop_prefix p l = Some r -> l = (p ++ r)%list.
Proof.
  revert l. induction p as [|a p IH]; intros [|b l]; simpl; try congruence.
  destruct (Ascii.eqb a b) eqn:E; [|congruence].
  apply Ascii.eqb_eq in E. subst b. intros H. now rewrite (IH _ H).
Qed.

Lemma drop_prefix_of_app (p r : list Ascii.ascii) : drop_prefix p (p ++ r) = Some r.
Proof. induction p as [|a p IH]; simpl; [done|]. now rewrite Ascii.eqb_refl. Qed.

Lemma drop_prefix_extend (p l r x : list Ascii.ascii) :
  drop_prefix p l = Some r -> drop_prefix p (l ++ x) = Some (r ++ x)%list.
Proof.
  intros H. rewrite (drop_prefix_app _ _ _ H), <- app_assoc. apply drop_prefix_of_app.
Qed.

Lemma skip_one_app (seqs : list (list Ascii.ascii)) (l r : list Ascii.ascii) :
  skip_one seqs l = Some r -> exists p, p ∈ seqs /\ l = (p ++ r)%list.
Proof.
  induction seqs as [|p seqs IH]; simpl; [done|].
  destruct (drop_prefix p l) as [r'|] eqn:E.
  - intros [= ->]. exists p. split; [left|]. now apply drop_prefix_app.
  - intros H. destruct (IH H) as (q & Hq & ->). exists q. split; [now right|done].
Qed.

(** A list that starts with one of the sequences still does when it is
    extended. *)
Lemma skip_one_extend (seqs : list (list Ascii.ascii)) (l x : list Ascii.ascii) :
  is_Some (skip_one seqs l) -> is_Some (skip_one seqs (l ++ x)).
Proof.
  induction seqs as [|p seqs IH]; simpl; [done|].
  destruct (drop_prefix p l) as [r|] eqn:E.
  - intros _. now rewrite (drop_prefix_extend _ _ _ x E).
  - intros H. destruct (drop_prefix p (l ++ x)); [done|]. now apply IH.
Qed.

Lemma skip_one_shorter (seqs : list (list Ascii.ascii)) (l r : list Ascii.ascii) :
  Forall (fun p => p <> []) seqs ->
  skip_one seqs l = Some r -> (List.length r < List.length l)%nat.
Proof.
  intros Hne H. destruct (skip_one_app _ _ _ H) as (p & Hp & ->).
  rewrite Forall_forall in Hne. specialize (Hne p Hp).
  rewrite length_app. destruct p; [done|]. simpl. lia.
Qed.

(** With fuel for every byte, stripping ends where no sequence starts. *)
Lemma strip_done (seqs : list (list Ascii.ascii)) (fuel : nat) (l : list Ascii.ascii) :
  Forall (fun p => p <> []) seqs ->
  (List.length l <= fuel)%nat ->
  skip_one seqs (strip seqs fuel l) = None.
Proof.
  intros Hne. revert l. induction fuel as [|fuel IH]; intros l Hl; simpl.
  - destruct l; [|simpl in Hl; lia].
    destruct (skip_one seqs []) as [r|] eqn:E; [|done].
    apply (skip_one_shorter _ _ _ Hne) in E. simpl in E. lia.
  - destruct (skip_one seqs l) as [r|] eqn:E; [|done].
    apply IH. apply (skip_one_shorter _ _ _ Hne) in E. lia.
Qed.

(** What stripping leaves is the end of the list. *)
Lemma strip_suffix (seqs : list (list Ascii.ascii)) (fuel : nat) (l : list Ascii.ascii) :
  exists p, l = (p ++ strip seqs fuel l)%list.
Proof.
  revert l. induction fuel as [|fuel IH]; intros l; simpl; [now exists []|].
  destruct (skip_one seqs l) as [r|] eqn:E; [|now exists []].
  destruct (skip_one_app _ _ _ E) as (q & _ & ->).
  destruct (IH r) as (p & Hp). exists (q ++ p)%list.
  now rewrite <- app_assoc, <- Hp.
Qed.

Lemma white_space_nonempty : Forall (fun p => p <> []) white_space.
Proof. unfold white_space. apply Forall_forall. intros p Hp.
  repeat (apply elem_of_cons in Hp as [-> | Hp]; [discriminate|]).
  now apply elem_of_nil in Hp.
Qed.

End TrimFacts.

(** [trim] leaves nothing it removes at either end. *)
Lemma trim_clean (s : string) :
  leading_white_space (JSString.trim s) = false
  /\ trailing_white_space (JSString.trim s) = false.
Proof.
  unfold leading_white_space, trailing_white_space, JSString.trim.
  rewrite String.list_ascii_of_string_of_list_ascii.
  set (x := JSString.trimStart (String.list_ascii_of_string s)).
  assert (Hrne : Forall (fun p => p <> []) (reverse <$> JSString.white_space)).
  { apply Forall_fmap. eapply Forall_impl; [apply TrimFacts.white_space_nonempty|].
    intros p Hp Hr. apply Hp. simpl in Hr.
    apply (f_equal reverse) in Hr. now rewrite reverse_involutive in Hr. }
  assert (Hend : JSString.skip_one (reverse <$> JSString.white_space)
                   (reverse (JSString.trimEnd x)) = None).
  { unfold JSString.trimEnd. rewrite reverse_involutive.
    apply TrimFacts.strip_done; [done|]. now rewrite length_reverse. }
  assert (Hstart : JSString.skip_one JSString.white_space x = None).
  { apply TrimFacts.strip_done; [apply TrimFacts.white_space_nonempty|done]. }
  split; apply bool_decide_eq_false; [|rewrite Hend; now intros [? ?]].
  intros Hsome.
  destruct (TrimFacts.strip_suffix (reverse <$> JSString.white_space)
              (length x) (reverse x)) as (p & Hp).
  assert (Hx : x = (JSString.trimEnd x ++ reverse p)%list).
  { unfold JSString.trimEnd. rewrite <- reverse_app, <- Hp. now rewrite reverse_involutive. }
  apply (TrimFacts.skip_one_extend _ _ (reverse p)) in Hsome.
  rewrite <- Hx, Hstart in Hsome. now destruct Hsome.
Qed.

(** A string with nothing to remove at either end is its own [trim]. *)
Lemma trim_of_clean (s : string) :
  leading_white_space s = false -> trailing_white_space s = false ->
  JSString.trim s = s.
Proof.
  unfold leading_white_space, trailing_white_space, JSString.trim.
  intros H1 H2. apply bool_decide_eq_false in H1, H2.
  assert (Hstrip : forall seqs fuel l,
             ~ is_Some (JSString.skip_one seqs l) -> JSString.strip seqs fuel l = l).
  { intros seqs [|fuel] l Hl; simpl; [done|].
    destruct (JSString.skip_one seqs l); [|done]. now destruct Hl. }
  unfold JSString.trimStart. rewrite Hstrip by done.
  unfold JSString.trimEnd. rewrite Hstrip by done.
  rewrite reverse_involutive. apply String.string_of_list_ascii_of_string.
Qed.

(** ** Provider parameters of the login request *)

Section ProviderParams.

Variable serviceId : string.

Local Abbreviation params := (providerParams serviceId).

(** X1.  The parameters always carry the configured serviceId and never a
    key other than serviceId and login_hint; login_hint is left out exactly
    when the query has no (truthy) login_hint, or it is blank after trimming,
    or it is longer than 255 code units after trimming. *)
Theorem providerParams_shape (query : value) :
  params query !! "serviceId" = Some (VStr serviceId)
  /\ (forall k, k <> "serviceId" -> k <> "login_hint" -> params query !! k = None)
  /\ (params query !! "login_hint" = None <->
        truthy (get query "login_hint") = false
        \/ cleaned_hint query = ""
        \/ (255 < JSString.length (cleaned_hint query))%nat).
Proof.
  unfold providerParams, cleaned_hint. cbv zeta.
  destruct (truthy (get query "login_hint")) eqn:Hq.
  - set (h := JSString.trim (to_string (get query "login_hint"))).
    simpl. destruct (String.eqb h "") eqn:He; simpl.
    + apply String.eqb_eq in He. split; [apply lookup_singleton_eq|].
      split; [intros k Hk _; now apply lookup_singleton_ne|].
      split; [auto|intros _; now apply lookup_singleton_ne].
    + apply String.eqb_neq in He.
      destruct (JSString.length h <=? 255)%nat eqn:Hl.
      * apply Nat.leb_le in Hl.
        split; [rewrite lookup_insert_ne by done; apply lookup_singleton_eq|].
        split; [intros k Hk Hk'; rewrite lookup_insert_ne by done;
                now apply lookup_singleton_ne|].
        rewrite lookup_insert_eq. split; [done|].
        intros [H|[H|H]]; [done|done|lia].
      * apply Nat.leb_gt in Hl. split; [apply lookup_singleton_eq|].
        split; [intros k Hk _; now apply lookup_singleton_ne|].
        split; [auto|intros _; now apply lookup_singleton_ne].
  - split; [apply lookup_singleton_eq|].
    split; [intros k Hk _; now apply lookup_singleton_ne|].
    split; [auto|intros _; now apply lookup_singleton_ne].
Qed.

(** What the two checks on a forwarded hint established. *)
Lemma forwarded_hint_checked (query v : value) :
  params query !! "login_hint" = Some v ->
  v = VStr (cleaned_hint query)
  /\ cleaned_hint query <> ""
  /\ (JSString.length (cleaned_hint query) <= 255)%nat.
Proof.
  unfold providerParams, cleaned_hint. cbv zeta.
  destruct (truthy (get query "login_hint")) eqn:Hq;
    [|now rewrite lookup_singleton_ne].
  set (h := JSString.trim (to_string (get query "login_hint"))).
  simpl. destruct (String.eqb h "") eqn:He; simpl;
    [now rewrite lookup_singleton_ne|].
  destruct (JSString.length h <=? 255)%nat eqn:Hl;
    [|now rewrite lookup_singleton_ne].
  rewrite lookup_insert_eq. intros [= <-].
  apply String.eqb_neq in He. now apply Nat.leb_le in Hl.
Qed.

(** X2.  A login_hint that is forwarded is the trimmed string form of the
    query's login_hint: it is not empty, has at most 255 code units, and
    neither starts nor ends with white space. *)
Theorem login_hint_forwarded_clean (query v : value) :
  params query !! "login_hint" = Some v ->
  exists h,
    v = VStr h
    /\ h = JSString.trim (to_string (get query "login_hint"))
    /\ h <> ""
    /\ (JSString.length h <= 255)%nat
    /\ leading_white_space h = false
    /\ trailing_white_space h = false.
Proof.
  intros H. destruct (forwarded_hint_checked query v H) as (-> & Hne & Hlen).
  exists (cleaned_hint query).
  destruct (trim_clean (to_string (get query "login_hint"))) as [H1 H2].
  done.
Qed.

(** X3.  Forwarding is stable: a hint that was forwarded, sent in again as
    the login_hint of a query, is forwarded unchanged. *)
Theorem login_hint_forwarded_again (query : value) (h : string) :
  params query !! "login_hint" = Some (VStr h) ->
  params (VObj {[ "login_hint" := VStr h ]}) !! "login_hint" = Some (VStr h).
Proof.
  intros H. destruct (forwarded_hint_checked query _ H) as ([= ->] & Hne & Hlen).
  destruct (trim_clean (to_string (get query "login_hint"))) as [Hlead Htrail].
  fold (cleaned_hint query) in Hlead, Htrail.
  unfold providerParams. cbv zeta.
  assert (Hget : get (VObj {[ "login_hint" := VStr (cleaned_hint query) ]}) "login_hint"
                 = VStr (cleaned_hint query))
    by (simpl; now rewrite lookup_singleton_eq).
  rewrite Hget. cbn [to_string]. rewrite (trim_of_clean _ Hlead Htrail).
  apply String.eqb_neq in Hne. apply Nat.leb_le in Hlen.
  simpl. rewrite Hne, Hlen. simpl. apply lookup_insert_eq.
Qed.

End ProviderParams.

(** ** Discovery and refresh, further *)

Lemma bind_inv {A B} (c : M A) (k : A -> M B) (w w' : world) (r : exn + B) :
  bind c k w = (r, w') ->
  (exists e, c w = (inl e, w') /\ r = inl e)
  \/ (exists a w1, c w = (inr a, w1) /\ k a w1 = (r, w')).
Proof.
  unfold bind. destruct (c w) as [[e|a] w1]; intros H.
  - left. exists e. now inversion H.
  - right. now exists a, w1.
Qed.

(** X4.  Every error of getOidcEndpoints is a plain Error whose message is
    "Failed to fetch OIDC configuration: " followed by the cause: the
    message of the transport or parse error, or, for a response that is not
    ok, "OIDC discovery failed: <status> <statusText>".  The class of the
    underlying error is not kept. *)
Theorem discovery_errors_wrapped (cfg : config) (w w' : world) (e : exn) :
  getOidcEndpoints cfg w = (inl e, w') ->
  exists cause,
    e = Error ("Failed to fetch OIDC configuration: " +:+ cause)
    /\ match network w (length (fetched w)) (discovery_request cfg) with
       | Rejected e0 => cause = message e0
       | Resolved r =>
           if ok r then exists e0, json r = inl e0 /\ cause = message e0
           else cause = "OIDC discovery failed: " +:+ pretty (status r)
                        +:+ " " +:+ statusText r
       end.
Proof.
  intros H.
  destruct (cache_truthy (cachedOidcEndpoints w)) eqn:Hc.
  { unfold cache_truthy in Hc. destruct (cachedOidcEndpoints w) as [p|] eqn:Hp; [|done].
    now rewrite (getOidcEndpoints_cached cfg w p Hp Hc) in H. }
  rewrite (getOidcEndpoints_discovers cfg w Hc) in H. cbv zeta in H.
  destruct (network w _ _) as [e0|r].
  - inversion H. now eexists.
  - destruct (ok r).
    + destruct (json r) as [e0|v] eqn:Hj; [|discriminate].
      inversion H. eexists. split; [reflexivity|]. now exists e0.
    + inversion H. now eexists.
Qed.

(** X5.  A call of getOidcEndpoints that returns leaves exactly what it
    returned in the cache.  It was either served from the cache, and then
    nothing else changed, or it made one request, the GET of the configured
    discovery URL, and returns the parse of an ok response to that request. *)
Theorem discovery_success_cached (cfg : config) (w w' : world) (p : parsed) :
  getOidcEndpoints cfg w = (inr p, w') ->
  cachedOidcEndpoints w' = Some p
  /\ ((cachedOidcEndpoints w = Some p /\ w' = w)
      \/ (fetched w' = (fetched w ++ [discovery_request cfg])%list
          /\ origin p = length (fetched w)
          /\ exists r, network w (length (fetched w)) (discovery_request cfg) = Resolved r
                       /\ ok r = true /\ json r = inr (content p))).
Proof.
  intros H.
  destruct (cache_truthy (cachedOidcEndpoints w)) eqn:Hc.
  { unfold cache_truthy in Hc. destruct (cachedOidcEndpoints w) as [q|] eqn:Hq; [|done].
    rewrite (getOidcEndpoints_cached cfg w q Hq Hc) in H. inversion H; subst. auto. }
  rewrite (getOidcEndpoints_discovers cfg w Hc) in H. cbv zeta in H.
  destruct (network w _ _) as [e0|r] eqn:Hn; [discriminate|].
  destruct (ok r) eqn:Hok; [|discriminate].
  destruct (json r) as [e0|v] eqn:Hj; [discriminate|].
  inversion H; subst. split; [done|]. right. simpl. eauto 6.
Qed.

(** X6.  Without a refresh token (null, undefined, the empty string) the
    refresh client throws "No refresh token provided" at once: no request is
    made and the discovery cache is not consulted or filled. *)
Theorem refresh_without_token (cfg : config) (refreshToken : value) (w : world) :
  truthy refreshToken = false ->
  refreshAccessToken cfg refreshToken w
  = (inl (Error "No refresh token provided"), noted refreshToken w)
  /\ fetched (noted refreshToken w) = fetched w
  /\ cachedOidcEndpoints (noted refreshToken w) = cachedOidcEndpoints w.
Proof.
  intros H. unfold refreshAccessToken, bind, note_refresh_call. now rewrite H.
Qed.

(** The refresh client once the endpoints are at hand. *)
Lemma refreshAccessToken_cached (cfg : config) (rt : value) (w : world) (p : parsed) :
  truthy rt = true ->
  cachedOidcEndpoints w = Some p ->
  truthy (content p) = true ->
  refreshAccessToken cfg rt w =
    let w1 := requested (token_request cfg p rt) (noted rt w) in
    match network w (length (fetched w)) (token_request cfg p rt) with
    | Rejected e => (inl e, w1)
    | Resolved r =>
        if ok r then
          match json r with
          | inr v => (inr v, w1)
          | inl e => (inl e, w1)
          end
        else
          (inl (Error ("Token refresh failed: " +:+ pretty (status r) +:+ " "
                       +:+ statusText r +:+ " - " +:+ text r)), w1)
    end.
Proof.
  intros Ht Hc Hp.
  unfold refreshAccessToken, bind at 1, note_refresh_call. fold (noted rt w).
  rewrite Ht. cbn [negb]. unfold bind at 1.
  rewrite (getOidcEndpoints_cached cfg (noted rt w) p Hc Hp).
  unfold bind at 1. rewrite (prop_defined _ _ _ (truthy_not_nullish _ Hp)).
  unfold bind, fetch, token_request, requested. cbv zeta.
  change (network (noted rt w)) with (network w).
  change (fetched (noted rt w)) with (fetched w).
  destruct (network w _ _) as [e|r]; [reflexivity|].
  cbn [snd fst]. destruct (ok r); [|reflexivity].
  unfold response_json. cbn [snd fst]. destruct (json r); reflexivity.
Qed.


(** X8.  When discovery fails inside a refresh, the refresh fails with the
    discovery error and the refresh token is never sent: the only request
    of the call is the discovery GET. *)
Theorem refresh_discovery_failure (cfg : config) (rt : value) (w w1 : world) (e : exn) :
  truthy rt = true ->
  getOidcEndpoints cfg (noted rt w) = (inl e, w1) ->
  refreshAccessToken cfg rt w = (inl e, w1)
  /\ fetched w1 = (fetched w ++ [discovery_request cfg])%list
  /\ req_form (discovery_request cfg) = [].
Proof.
  intros Ht Hd. split; [|split; [|done]].
  - unfold refreshAccessToken, bind at 1, note_refresh_call. fold (noted rt w).
    rewrite Ht. cbn [negb]. unfold bind at 1. now rewrite Hd.
  - destruct (cache_truthy (cachedOidcEndpoints (noted rt w))) eqn:Hc.
    { unfold cache_truthy in Hc.
      destruct (cachedOidcEndpoints (noted rt w)) as [p|] eqn:Hp; [|done].
      now rewrite (getOidcEndpoints_cached cfg _ p Hp Hc) in Hd. }
    rewrite (getOidcEndpoints_discovers cfg _ Hc) in Hd. cbv zeta in Hd.
    destruct (network _ _ _) as [e0|r]; [now inversion Hd|].
    destruct (ok r); [|now inversion Hd].
    destruct (json r); [now inversion Hd|discriminate].
Qed.

(** ** The strategy, further *)

Section StrategyFurther.

Variable parseISO : value -> exn + option Z.
Variable toISOString : Z -> string.
Variable StringToNumber : string -> option Z.
Variable cfg : config.

Local Abbreviation strategy := (authenticate parseISO toISOString StringToNumber cfg).
Local Abbreviation refreshing := (refresh_session toISOString StringToNumber cfg).

(** The strategy, case by case. *)
Lemma authenticate_cases (req : request) (w : world) :
  strategy req w =
    let s := default VNull (yar_store w !! "auth") in
    if truthy s then
      match parseISO (get s "expiresAt") with
      | inl e => (inl e, w)
      | inr date =>
          if tokenHasExpired date (clock w (clock_reads w))
             && truthy (get s "refreshToken")
          then try_catch (refreshing s) (refresh_failed req) (tick w)
          else (inr (Authenticated s), tick w)
      end
    else if lenient (auth_mode req) then (inr (Authenticated (VObj ∅)), w)
    else (inr (RedirectTakeover (VStr "/auth/login")), marked (path req) w).
Proof.
  cbv zeta. unfold authenticate, bind at 1, yar_get.
  destruct (truthy (default VNull (yar_store w !! "auth"))) eqn:Ht; cbn [negb].
  - unfold bind at 1. rewrite (prop_defined _ _ _ (truthy_not_nullish _ Ht)).
    unfold bind at 1, lift.
    destruct (parseISO _) as [e|date]; [reflexivity|].
    cbn [ret]. unfold bind at 1, isPast, bind at 1, Date_now, ret. fold (tick w).
    unfold bind at 1. rewrite (prop_defined _ _ _ (truthy_not_nullish _ Ht)).
    replace (match subMinutes date 1 with
             | Some t => t <? clock w (clock_reads w)
             | None => false
             end) with (tokenHasExpired date (clock w (clock_reads w)))
      by reflexivity.
    destruct (tokenHasExpired _ _ && _); reflexivity.
  - unfold lenient.
    destruct (String.eqb (auth_mode req) "try" || String.eqb (auth_mode req) "optional");
      reflexivity.
Qed.

Lemma refresh_failed_result (req : request) (e : exn) (w : world) :
  refresh_failed req e w =
    if lenient (auth_mode req) then (inr (Authenticated (VObj ∅)), cleared w)
    else (inr (RedirectTakeover (VStr "/auth/login")), marked (path req) (cleared w)).
Proof.
  unfold refresh_failed, bind, yar_clear, lenient. fold (cleared w).
  now destruct (String.eqb (auth_mode req) "try" || String.eqb (auth_mode req) "optional").
Qed.

(** The [try] block either throws, with the session untouched, or stores the
    record it answers with; it calls the refresh client once. *)
Lemma refresh_session_inv (s : value) (w1 w3 : world) (r : exn + reply) :
  refreshing s w1 = (r, w3) ->
  yar_flash w3 = yar_flash w1
  /\ refresh_calls w3 = (refresh_calls w1 ++ [get s "refreshToken"])%list
  /\ ((exists e, r = inl e /\ yar_store w3 = yar_store w1)
      \/ (exists u, r = inr (Authenticated (VObj u))
                    /\ u !! "expiresAt" <> None
                    /\ yar_store w3 = <["auth" := VObj u]> (yar_store w1))).
Proof.
  unfold refresh_session. intros H.
  pose proof (refreshAccessToken_yar_store cfg (get s "refreshToken") w1) as Hs.
  pose proof (refreshAccessToken_yar_flash cfg (get s "refreshToken") w1) as Hf.
  pose proof (refreshAccessToken_recorded cfg (get s "refreshToken") w1) as Hc.
  apply bind_inv in H as [(e & H & ->) | (newTokens & w2 & H & Hk)];
    rewrite H in Hs, Hf, Hc; simpl in Hs, Hf, Hc.
  { split; [done|]. split; [done|]. left. now exists e. }
  rewrite <- Hs, <- Hf, <- Hc. clear H Hs Hf Hc.
  unfold prop in Hk. destruct (nullish newTokens).
  { unfold bind, throw in Hk. inversion Hk; subst.
    split; [done|]. split; [done|]. left. now eexists. }
  unfold bind, ret, Date_now, Date_toISOString in Hk.
  destruct (num_add _ _) as [t|].
  - destruct (Z.abs t <=? max_time).
    + unfold ret, yar_set in Hk. inversion Hk; subst. simpl.
      split; [done|]. split; [done|]. right. eexists. split; [reflexivity|].
      split; [|done]. now rewrite lookup_insert_eq.
    + unfold throw in Hk. inversion Hk; subst. simpl.
      split; [done|]. split; [done|]. left. now eexists.
  - unfold throw in Hk. inversion Hk; subst. simpl.
    split; [done|]. split; [done|]. left. now eexists.
Qed.

(** What a run of the strategy can have been. *)
Lemma authenticate_outcome (req : request) (w w' : world) (r : exn + reply) :
  strategy req w = (r, w') ->
  let stored := default VNull (yar_store w !! "auth") in
  let fallback : exn + reply :=
    if lenient (auth_mode req) then inr (Authenticated (VObj ∅))
    else inr (RedirectTakeover (VStr "/auth/login")) in
  let after (w2 : world) : world :=
    if lenient (auth_mode req) then w2 else marked (path req) w2 in
  (* the date library threw *)
  (truthy stored = true /\ w' = w
   /\ exists e, r = inl e /\ parseISO (get stored "expiresAt") = inl e)
  (* the stored session was used *)
  \/ (truthy stored = true /\ w' = tick w /\ r = inr (Authenticated stored))
  (* the session was refreshed *)
  \/ (truthy stored = true /\ truthy (get stored "refreshToken") = true
      /\ yar_flash w' = yar_flash w
      /\ refresh_calls w' = (refresh_calls w ++ [get stored "refreshToken"])%list
      /\ exists u, r = inr (Authenticated (VObj u))
                   /\ u !! "expiresAt" <> None
                   /\ yar_store w' = <["auth" := VObj u]> (yar_store w))
  (* the refresh failed *)
  \/ (truthy stored = true /\ truthy (get stored "refreshToken") = true
      /\ r = fallback
      /\ exists w2, w' = after (cleared w2)
                    /\ yar_store w2 = yar_store w
                    /\ yar_flash w2 = yar_flash w
                    /\ refresh_calls w2
                       = (refresh_calls w ++ [get stored "refreshToken"])%list)
  (* there was no session *)
  \/ (truthy stored = false /\ r = fallback /\ w' = after w).
Proof.
  rewrite authenticate_cases. cbv zeta.
  destruct (truthy (default VNull (yar_store w !! "auth"))) eqn:Ht.
  - destruct (parseISO _) as [e|date] eqn:Hp.
    { intros [= <- <-]. left. eauto. }
    destruct (tokenHasExpired _ _) eqn:He; simpl.
    + destruct (truthy (get _ "refreshToken")) eqn:Hr.
      * unfold try_catch.
        destruct (refreshing _ (tick w)) as [[e|a] w2] eqn:Hrun;
          apply refresh_session_inv in Hrun
            as (Hflash & Hcalls & [(e' & He' & Hstore) | (u & Hu & Hexp & Hstore)]);
          try discriminate.
        -- rewrite refresh_failed_result. intros H.
           right. right. right. left. split; [done|]. split; [done|].
           destruct (lenient (auth_mode req)); inversion H; subst;
             (split; [done|]); exists w2; done.
        -- intros [= <- <-]. right. right. left.
           split; [done|]. split; [done|]. split; [done|]. split; [done|].
           exists u. done.
      * intros [= <- <-]. right. left. done.
    + intros [= <- <-]. right. left. done.
  - intros H. right. right. right. right. split; [done|].
    destruct (lenient (auth_mode req)); now inversion H.
Qed.

(** X9.  The strategy never lets an error of the refresh through: unless the
    date library throws on the stored expiresAt, every run ends with a reply,
    whatever the network answers. *)
Theorem strategy_recovers_refresh_errors (req : request) (w : world) :
  (forall e, parseISO (get (default VNull (yar_store w !! "auth")) "expiresAt") <> inl e) ->
  exists r w', strategy req w = (inr r, w').
Proof.
  intros Hp. destruct (strategy req w) as [r w'] eqn:H.
  apply authenticate_outcome in H. cbv zeta in H.
  destruct H as [(_ & _ & e & _ & He) | [(_ & _ & ->) | [(_ & _ & _ & _ & u & -> & _)
    | [(_ & _ & -> & _) | (_ & -> & _)]]]]; eauto.
  - now apply Hp in He.
  - destruct (lenient (auth_mode req)); eauto.
  - destruct (lenient (auth_mode req)); eauto.
Qed.

(** X10.  What the reply says of the session afterwards.  Credentials other
    than the empty ones are exactly the record stored under 'auth'; the
    empty credentials are given only in mode 'try' or 'optional' and only
    when no session is left; a redirect is always to /auth/login, only in
    the other modes, only when no session is left, and its request path is
    the last pending-redirect marker. *)
Theorem strategy_reply_matches_session (req : request) (w w' : world) (r : reply) :
  strategy req w = (inr r, w') ->
  match r with
  | Authenticated c =>
      (yar_store w' !! "auth" = Some c /\ truthy c = true)
      \/ (c = VObj ∅ /\ lenient (auth_mode req) = true
          /\ truthy (default VNull (yar_store w' !! "auth")) = false)
  | RedirectTakeover to =>
      to = VStr "/auth/login" /\ lenient (auth_mode req) = false
      /\ truthy (default VNull (yar_store w' !! "auth")) = false
      /\ last (default [] (yar_flash w' !! "redirect")) = Some (VStr (path req))
  | Redirect _ => False
  end.
Proof.
  intros H. apply authenticate_outcome in H. cbv zeta in H.
  assert (Hmark : forall w2,
             last (default [] (yar_flash (marked (path req) w2) !! "redirect"))
             = Some (VStr (path req))).
  { intros w2. unfold marked. simpl. rewrite lookup_insert_eq. simpl. apply last_snoc. }
  destruct H as [(_ & _ & e & He & _) | [(Ht & -> & Hr) | [(_ & _ & _ & _ & u & Hr & _ & Hs)
    | [(_ & _ & Hr & w2 & -> & _) | (Ht & Hr & ->)]]]].
  - discriminate.
  - injection Hr as ->. left. split; [|done]. simpl.
    destruct (yar_store w !! "auth"); [done|discriminate].
  - injection Hr as ->. left. split; [|done]. rewrite Hs. apply lookup_insert_eq.
  - destruct (lenient (auth_mode req)) eqn:Hl; injection Hr as ->.
    + right. split; [done|]. split; [done|]. unfold cleared. simpl.
      now rewrite lookup_delete_eq.
    + split; [done|]. split; [done|]. split; [|apply Hmark].
      unfold marked, cleared. simpl. now rewrite lookup_delete_eq.
  - destruct (lenient (auth_mode req)) eqn:Hl; injection Hr as ->.
    + right. done.
    + split; [done|]. split; [done|]. split; [exact Ht|apply Hmark].
Qed.

(** X11.  The strategy touches nothing of the session but the 'auth' value
    and the 'redirect' flash messages, to which it can only add. *)
Theorem strategy_touches_auth_only (req : request) (w : world) :
  let w' := snd (strategy req w) in
  (forall k, k <> "auth" -> yar_store w' !! k = yar_store w !! k)
  /\ (forall k, k <> "redirect" -> yar_flash w' !! k = yar_flash w !! k)
  /\ exists added,
       default [] (yar_flash w' !! "redirect")
       = (default [] (yar_flash w !! "redirect") ++ added)%list.
Proof.
  cbv zeta. destruct (strategy req w) as [r w'] eqn:H. simpl.
  apply authenticate_outcome in H. cbv zeta in H.
  assert (Hsame : forall w2 : world,
             yar_flash w2 = yar_flash w ->
             (forall k, k <> "redirect" -> yar_flash w2 !! k = yar_flash w !! k)
             /\ exists added, default [] (yar_flash w2 !! "redirect")
                              = (default [] (yar_flash w !! "redirect") ++ added)%list).
  { intros w2 ->. split; [done|]. exists []. now rewrite app_nil_r. }
  assert (Hmarked : forall w2 : world,
             yar_flash w2 = yar_flash w ->
             (forall k, k <> "redirect" ->
                yar_flash (marked (path req) w2) !! k = yar_flash w !! k)
             /\ exists added, default [] (yar_flash (marked (path req) w2) !! "redirect")
                              = (default [] (yar_flash w !! "redirect") ++ added)%list).
  { intros w2 Hw2. unfold marked. simpl. rewrite Hw2. split.
    - intros k Hk. now rewrite lookup_insert_ne.
    - eexists. now rewrite lookup_insert_eq. }
  destruct H as [(_ & -> & _) | [(_ & -> & _) | [(_ & _ & Hf & _ & u & _ & _ & Hs)
    | [(_ & _ & _ & w2 & -> & Hs & Hf & _) | (_ & _ & ->)]]]].
  - split; [done|]. now apply Hsame.
  - split; [done|]. now apply Hsame.
  - split; [|now apply Hsame]. intros k Hk. rewrite Hs. now rewrite lookup_insert_ne.
  - destruct (lenient (auth_mode req)).
    + split; [|now apply Hsame].
      intros k Hk. unfold cleared. simpl. rewrite Hs. now rewrite lookup_delete_ne.
    + split; [|now apply Hmarked].
      intros k Hk. unfold marked, cleared. simpl. rewrite Hs. now rewrite lookup_delete_ne.
  - destruct (lenient (auth_mode req)).
    + split; [done|]. now apply Hsame.
    + split; [done|]. now apply Hmarked.
Qed.

(** X12.  A run of the strategy calls the refresh client at most once, and
    only with the stored refresh token when that is present: the client's
    "No refresh token provided" cannot come from the strategy. *)
Theorem strategy_refreshes_at_most_once (req : request) (w : world) :
  let w' := snd (strategy req w) in
  let token := get (default VNull (yar_store w !! "auth")) "refreshToken" in
  refresh_calls w' = refresh_calls w
  \/ (truthy token = true /\ refresh_calls w' = (refresh_calls w ++ [token])%list).
Proof.
  cbv zeta. destruct (strategy req w) as [r w'] eqn:H. simpl.
  apply authenticate_outcome in H. cbv zeta in H.
  destruct H as [(_ & -> & _) | [(_ & -> & _) | [(_ & Ht & _ & Hc & _)
    | [(_ & Ht & _ & w2 & -> & _ & _ & Hc) | (_ & _ & ->)]]]]; auto.
  - right. split; [done|]. now destruct (lenient (auth_mode req)).
  - left. now destruct (lenient (auth_mode req)).
Qed.

(** X13.  A refresh that is answered, but with a body the session cannot be
    updated from (null, or an expires_in that is not a number or gives no
    valid date), counts as a failed refresh: the session record is cleared
    and the reply is that of the NoSession state.  The refresh is attempted
    when expiresAt less one minute is a date and lies before the reading of
    Date.now(). *)
Theorem unusable_refresh_response_clears (req : request) (w w2 : world)
    (o : gmap string value) (t : Z) (newTokens : value) :
  yar_store w !! "auth" = Some (VObj o) ->
  parseISO (get (VObj o) "expiresAt") = inr (Some t) ->
  Z.abs (t - 60000) <= max_time ->
  t < clock w (clock_reads w) + 60000 ->
  truthy (get (VObj o) "refreshToken") = true ->
  refreshAccessToken cfg (get (VObj o) "refreshToken") (tick w) = (inr newTokens, w2) ->
  nullish newTokens = true
  \/ match to_number StringToNumber (get newTokens "expires_in") with
     | Some n => max_time < Z.abs (clock w2 (clock_reads w2) + n * 1000)
     | None => True
     end ->
  yar_store (snd (strategy req w)) !! "auth" = None
  /\ fst (strategy req w)
     = if lenient (auth_mode req) then inr (Authenticated (VObj ∅))
       else inr (RedirectTakeover (VStr "/auth/login")).
Proof.
  intros Hs Hp Hd Ht Hr Hf Hbad.
  rewrite (authenticate_expired parseISO toISOString StringToNumber cfg
             req w (VObj o) (Some t)); try done.
  2:{ now rewrite Hr, tokenHasExpired_early. }
  assert (Hthrown : exists e w3,
             refreshing (VObj o) (tick w) = (inl e, w3) /\ yar_flash w3 = yar_flash w2).
  { unfold refresh_session, bind at 1. rewrite Hf. unfold prop.
    destruct (nullish newTokens) eqn:Hn.
    { unfold bind, throw. eauto. }
    destruct Hbad as [?|Hbad]; [done|].
    unfold bind, ret, Date_now, Date_toISOString.
    destruct (to_number _ _) as [n|]; simpl.
    - assert ((Z.abs (clock w2 (clock_reads w2) + n * 1000) <=? max_time) = false) as ->
        by (apply Z.leb_gt; lia).
      unfold throw. eauto.
    - unfold throw. eauto. }
  destruct Hthrown as (e & w3 & Hrun & _).
  unfold try_catch. rewrite Hrun, refresh_failed_result.
  destruct (lenient (auth_mode req)); simpl; (split; [|done]);
    unfold marked, cleared; simpl; apply lookup_delete_eq.
Qed.

(** X14.  A session whose expiresAt the date library reads as an Invalid
    Date never expires: it is the credentials of every request, in every
    mode and at any time, and is never refreshed. *)
Theorem invalid_expiry_never_expires (req : request) (w : world)
    (o : gmap string value) :
  yar_store w !! "auth" = Some (VObj o) ->
  parseISO (get (VObj o) "expiresAt") = inr None ->
  strategy req w = (inr (Authenticated (VObj o)), tick w)
  /\ refresh_calls (tick w) = refresh_calls w
  /\ yar_store (tick w) = yar_store w.
Proof.
  intros Hs Hp. split; [|done].
  now apply (authenticate_as_stored parseISO toISOString StringToNumber cfg
               req w (VObj o) None).
Qed.

(** X15.  Credentials once given are given again: when the strategy has
    authenticated a request with a record other than the empty credentials,
    the next request of the session is authenticated with the same record,
    without a refresh, as long as the clock reads no more than the record's
    expiresAt less one minute. *)
Theorem credentials_given_again (req req' : request) (w w1 : world)
    (o : gmap string value) (t : Z) :
  strategy req w = (inr (Authenticated (VObj o)), w1) ->
  o <> ∅ ->
  parseISO (get (VObj o) "expiresAt") = inr (Some t) ->
  clock w1 (clock_reads w1) + 60000 <= t ->
  strategy req' w1 = (inr (Authenticated (VObj o)), tick w1)
  /\ refresh_calls (tick w1) = refresh_calls w1.
Proof.
  intros H Hne Hp Ht. split; [|done].
  assert (Hstored : yar_store w1 !! "auth" = Some (VObj o)).
  { apply authenticate_outcome in H. cbv zeta in H.
    destruct H as [(_ & _ & e & He & _) | [(Htr & -> & Hr) | [(_ & _ & _ & _ & u & Hr & _ & Hs)
      | [(_ & _ & Hr & _) | (_ & Hr & _)]]]].
    - discriminate.
    - injection Hr as Hr. simpl. destruct (yar_store w !! "auth"); [|discriminate].
      simpl in Hr. now subst.
    - injection Hr as ->. rewrite Hs. apply lookup_insert_eq.
    - destruct (lenient (auth_mode req)); [|discriminate]. congruence.
    - destruct (lenient (auth_mode req)); [|discriminate]. congruence. }
  apply (authenticate_as_stored parseISO toISOString StringToNumber cfg
           req' w1 (VObj o) (Some t)); try done.
  now rewrite tokenHasExpired_late by lia.
Qed.

(** Credentials are the stored record, or the empty ones of a lenient mode. *)
Lemma authenticated_is_stored (req : request) (w w1 : world) (c : value) :
  strategy req w = (inr (Authenticated c), w1) ->
  (yar_store w1 !! "auth" = Some c /\ truthy c = true)
  \/ (c = VObj ∅ /\ lenient (auth_mode req) = true).
Proof.
  intros H. apply authenticate_outcome in H. cbv zeta in H.
  destruct H as [(_ & _ & e & He & _) | [(Htr & -> & Hr) | [(_ & _ & _ & _ & u & Hr & _ & Hs)
    | [(_ & _ & Hr & _) | (_ & Hr & _)]]]].
  - discriminate.
  - injection Hr as ->. left. split; [|done]. simpl.
    destruct (yar_store w !! "auth"); [done|discriminate].
  - injection Hr as ->. left. split; [|done]. rewrite Hs. apply lookup_insert_eq.
  - destruct (lenient (auth_mode req)); [|discriminate]. injection Hr as ->. now right.
  - destruct (lenient (auth_mode req)); [|discriminate]. injection Hr as ->. now right.
Qed.

End StrategyFurther.

(** ** Callback, logout and the pages, further *)

Lemma append_assoc (a b c : string) : (a +:+ b) +:+ c = a +:+ (b +:+ c).
Proof.
  induction a as [|x a IH]; [done|].
  change (String x ((a +:+ b) +:+ c) = String x (a +:+ (b +:+ c))). now rewrite IH.
Qed.





Lemma session_record_fields (claims credentials : value) (expiresAt k : string) :
  is_Some (session_record claims credentials expiresAt !! k) <-> k ∈ session_keys.
Proof.
  unfold session_record, session_keys.
  rewrite <- elem_of_dom, dom_list_to_map_L. simpl. set_solver.
Qed.

Section Further.

Variable parseISO : value -> exn + option Z.
Variable toISOString : Z -> string.
Variable StringToNumber : string -> option Z.
Variable jwt_token_decode : value -> exn + value.
Variable cfg : config.

Local Abbreviation strategy := (authenticate parseISO toISOString StringToNumber cfg).
Local Abbreviation handler := (callback toISOString StringToNumber jwt_token_decode).

(** A callback that returns has stored a record and consumed the marker. *)
Lemma callback_returns (req : request) (w w1 : world) (r : reply) :
  handler req w = (inr r, w1) ->
  exists claims n,
    nullish claims = false
    /\ to_number StringToNumber (get (auth_credentials req) "expiresIn") = Some n
    /\ r = Redirect (pending_redirect w)
    /\ w1 = signed_in
              (session_record claims (auth_credentials req)
                 (toISOString (clock w (clock_reads w) + n * 1000))) w.
Proof.
  rewrite callback_cases. cbv zeta.
  destruct (nullish (auth_credentials req)); [discriminate|].
  destruct (jwt_token_decode _) as [e|decoded]; [discriminate|].
  destruct (nullish decoded); [discriminate|].
  destruct (nullish (get decoded "decoded")); [discriminate|].
  destruct (nullish (get (get decoded "decoded") "payload")) eqn:Hc; [discriminate|].
  destruct (to_number _ _) as [n|]; [|discriminate].
  destruct (Z.abs _ <=? max_time); [|discriminate].
  intros [= <- <-]. eauto 6.
Qed.

(** X17.  The session a callback creates is what the strategy then gives as
    credentials, without a refresh, for as long as the clock reads no more
    than its expiresAt less one minute; that expiresAt is the ISO form of
    the callback's reading of Date.now() plus expiresIn * 1000 ms. *)
Theorem callback_then_strategy (req req' : request) (w w1 : world) (r : reply) (t : Z) :
  handler req w = (inr r, w1) ->
  exists record n,
    yar_store w1 !! "auth" = Some (VObj record)
    /\ to_number StringToNumber (get (auth_credentials req) "expiresIn") = Some n
    /\ record !! "expiresAt"
       = Some (VStr (toISOString (clock w (clock_reads w) + n * 1000)))
    /\ (parseISO (get (VObj record) "expiresAt") = inr (Some t) ->
        clock w1 (clock_reads w1) + 60000 <= t ->
        strategy req' w1 = (inr (Authenticated (VObj record)), tick w1)).
Proof.
  intros H. destruct (callback_returns req w w1 r H) as (claims & n & _ & Hn & _ & Hw1).
  subst w1. eexists _, n. split; [apply lookup_insert_eq|]. split; [done|]. split.
  - unfold session_record. cbn [list_to_map foldr fst snd uncurry].
    rewrite !lookup_insert_ne by done. apply lookup_insert_eq.
  - intros Hp Ht.
    apply (authenticate_as_stored parseISO toISOString StringToNumber cfg
             req' _ (VObj _) (Some t)); try done.
    + apply lookup_insert_eq.
    + now rewrite tokenHasExpired_late by (simpl in *; lia).
Qed.

(** X18.  The pending-redirect marker comes back: when the strategy has
    turned a request away with a redirect, for want of a session or after a
    refresh that failed, and no marker was pending before, the redirect is to
    /auth/login and the next successful callback of the session redirects to
    the path of that request, and leaves no marker. *)
Theorem pending_redirect_round_trip (req req' : request) (w w' w1 w2 : world)
    (to : value) (r : reply) :
  strategy req w = (inr (RedirectTakeover to), w') ->
  yar_flash w !! "redirect" = None ->
  yar_flash w1 = yar_flash w' ->
  handler req' w1 = (inr r, w2) ->
  to = VStr "/auth/login"
  /\ r = Redirect (VStr (path req))
  /\ yar_flash w2 !! "redirect" = None.
Proof.
  intros Hrun Hf Hw1 H.
  assert (Hmarked : forall w0 : world,
            yar_flash w0 = yar_flash w ->
            yar_flash (marked (path req) w0) !! "redirect" = Some [VStr (path req)]).
  { intros w0 Hw0. unfold marked. simpl. now rewrite lookup_insert_eq, Hw0, Hf. }
  assert (Hturned : to = VStr "/auth/login"
                    /\ yar_flash w' !! "redirect" = Some [VStr (path req)]).
  { apply (authenticate_outcome parseISO toISOString StringToNumber cfg) in Hrun.
    cbv zeta in Hrun.
    destruct Hrun as [(_ & _ & e & He & _) | [(_ & _ & Hr) | [(_ & _ & _ & _ & u & Hr & _)
      | [(_ & _ & Hr & w0 & -> & _ & Hflash & _) | (_ & Hr & ->)]]]]; try discriminate.
    - destruct (lenient (auth_mode req)); [discriminate|].
      injection Hr as ->. split; [reflexivity|]. now apply Hmarked.
    - destruct (lenient (auth_mode req)); [discriminate|].
      injection Hr as ->. split; [reflexivity|]. now apply Hmarked. }
  destruct Hturned as [-> Hmark]. split; [reflexivity|].
  destruct (callback_returns req' w1 w2 r H) as (claims & n & _ & _ & Hr & Hw2).
  subst r w2. split.
  - unfold pending_redirect. now rewrite Hw1, Hmark.
  - unfold signed_in. simpl. apply lookup_delete_eq.
Qed.

(** X19.  The marker is read once and the oldest wins: a successful callback
    redirects to the first pending marker (to "/" when there is none or it
    is null), discards them all, and a second successful callback right
    after it redirects to "/". *)
Theorem pending_redirect_one_shot (req req' : request) (w w1 w2 : world) (r r' : reply) :
  handler req w = (inr r, w1) ->
  handler req' w1 = (inr r', w2) ->
  r = Redirect (match yar_flash w !! "redirect" with
                | Some (m :: _) => if nullish m then VStr "/" else m
                | _ => VStr "/"
                end)
  /\ yar_flash w1 !! "redirect" = None
  /\ r' = Redirect (VStr "/").
Proof.
  intros H H'.
  destruct (callback_returns req w w1 r H) as (claims & n & _ & _ & Hr & Hw1).
  destruct (callback_returns req' w1 w2 r' H') as (claims' & n' & _ & _ & Hr' & _).
  subst r r' w1.
  assert (Hgone : forall rec, yar_flash (signed_in rec w) !! "redirect" = None)
    by (intros; unfold signed_in; simpl; apply lookup_delete_eq).
  split; [|split; [apply Hgone|]].
  - unfold pending_redirect, coalesce.
    destruct (yar_flash w !! "redirect") as [[|m l]|]; reflexivity.
  - unfold pending_redirect. now rewrite Hgone.
Qed.

(** X20.  A callback replaces the session record, it does not merge: the
    record it stores has the ten fields of a session record and no other,
    whatever the token held and whatever was stored before, and nothing
    else of the session's values changes. *)
Theorem callback_replaces_session (req : request) (w w1 : world) (r : reply)
    (previous : gmap string value) :
  handler req w = (inr r, w1) ->
  exists record,
    yar_store w1 = <["auth" := VObj record]> (yar_store w)
    /\ (forall k, is_Some (record !! k) <-> k ∈ session_keys)
    /\ truthy (get (VObj record) "relationships") = true
    /\ truthy (get (VObj record) "roles") = true
    /\ handler req (set_yar_store previous w)
       = (inr r, set_yar_store (<["auth" := VObj record]> previous) w1).
Proof.
  intros H. rewrite callback_cases in H |- *. cbv zeta in H |- *.
  change (clock (set_yar_store previous w)) with (clock w).
  change (clock_reads (set_yar_store previous w)) with (clock_reads w).
  destruct (nullish (auth_credentials req)); [discriminate|].
  destruct (jwt_token_decode _) as [e|decoded]; [discriminate|].
  destruct (nullish decoded); [discriminate|].
  destruct (nullish (get decoded "decoded")); [discriminate|].
  destruct (nullish (get (get decoded "decoded") "payload")); [discriminate|].
  destruct (to_number _ _) as [n|]; [|discriminate].
  destruct (Z.abs _ <=? max_time); [|discriminate].
  injection H as <- <-.
  set (claims := get (get decoded "decoded") "payload").
  eexists. split; [reflexivity|]. split; [|split; [|split; [|reflexivity]]].
  - intros k. apply session_record_fields.
  - unfold session_record. cbn [list_to_map foldr fst snd uncurry get].
    rewrite !lookup_insert_ne by done. rewrite lookup_insert_eq. simpl.
    unfold or_else. now destruct (truthy (get claims "relationships")) eqn:E.
  - unfold session_record. cbn [list_to_map foldr fst snd uncurry get].
    rewrite !lookup_insert_ne by done. rewrite lookup_insert_eq. simpl.
    unfold or_else. now destruct (truthy (get claims "roles")) eqn:E.
Qed.

(** X21.  After a logout, whether it redirected or threw, the strategy finds
    no session: in mode 'try' or 'optional' the next request proceeds with
    empty credentials, in the other modes it is redirected to /auth/login. *)
Theorem logout_then_strategy (req req' : request) (w : world) :
  let w1 := snd (logout cfg req w) in
  strategy req' w1 =
    if lenient (auth_mode req') then (inr (Authenticated (VObj ∅)), w1)
    else (inr (RedirectTakeover (VStr "/auth/login")), marked (path req') w1).
Proof.
  cbv zeta. apply authenticate_no_session. apply logout_clears.
Qed.

(** X22.  The OAuth callback URL and the post-logout URI have the same
    origin, the callback URL being the post-logout URI followed by
    /auth/callback, except when the configured host is 0.0.0.0: the callback
    URL then names localhost and the post-logout URI keeps 0.0.0.0. *)
Theorem callback_and_logout_origins :
  let scheme := if isProduction cfg then "https" else "http" in
  let suffix :=
    if (port cfg =? 80) || (port cfg =? 443) then "" else ":" +:+ pretty (port cfg) in
  (host cfg <> "0.0.0.0" -> callbackUrl cfg = postLogoutUri cfg +:+ "/auth/callback")
  /\ (host cfg = "0.0.0.0" ->
        callbackUrl cfg = scheme +:+ "://localhost" +:+ suffix +:+ "/auth/callback"
        /\ postLogoutUri cfg = scheme +:+ "://0.0.0.0" +:+ suffix).
Proof.
  cbv zeta. unfold callbackUrl, postLogoutUri. split.
  - intros Hh. apply String.eqb_neq in Hh. rewrite Hh.
    destruct ((port cfg =? 80) || (port cfg =? 443));
      now rewrite !append_assoc.
  - intros ->. simpl String.eqb. cbv iota.
    destruct ((port cfg =? 80) || (port cfg =? 443));
      destruct (isProduction cfg); split; reflexivity.
Qed.

(** Set-up leaves the document it discovered in the cache. *)
Lemma setup_caches (session_cookie_password : string) (w w1 : world)
    (options : bell_options) :
  setupDefraIdStrategy cfg session_cookie_password w = (inr options, w1) ->
  exists p, cachedOidcEndpoints w1 = Some p
            /\ provider_auth options = get (content p) "authorization_endpoint".
Proof.
  unfold setupDefraIdStrategy. intros H.
  apply bind_inv in H as [(e & _ & ?) | (p & w0 & Hd & H)]; [discriminate|].
  unfold prop in H. destruct (nullish (content p)) eqn:Hn.
  { unfold bind, throw in H. discriminate. }
  unfold bind, ret in H. injection H as <- <-.
  exists p. split; [|reflexivity].
  destruct (cache_truthy (cachedOidcEndpoints w)) eqn:Hc.
  - unfold cache_truthy in Hc. destruct (cachedOidcEndpoints w) as [q|] eqn:Hq; [|done].
    rewrite (getOidcEndpoints_cached cfg w q Hq Hc) in Hd. now inversion Hd; subst.
  - rewrite (getOidcEndpoints_discovers cfg w Hc) in Hd. cbv zeta in Hd.
    destruct (network w _ _) as [e|r]; [discriminate|].
    destruct (ok r); [|discriminate]. destruct (json r); [discriminate|].
    now inversion Hd.
Qed.

(** A cached document stays cached, whatever the process does. *)
Lemma caches_for_life (p : parsed) (w1 w2 : world) :
  truthy (content p) = true ->
  rtc (step parseISO toISOString StringToNumber jwt_token_decode cfg) w1 w2 ->
  caches p w1 -> caches p w2.
Proof.
  intros Ht Hsteps. induction Hsteps as [|x y z Hxy _ IH]; [done|].
  intros Hx. apply IH.
  now apply (step_caches parseISO toISOString StringToNumber jwt_token_decode cfg p x y).
Qed.

(** C8.  The logout route exists only in a process whose start-up has set up
    the Bell strategy (server.js awaits setupDefraIdStrategy before it
    registers the routes, and the router registers the auth routes under the
    same condition).  In such a process, whatever it has done since, every
    logout, with or without a session, clears the session record; and, the
    document discovered at start-up being an object, it makes no request and
    redirects to <end_session_endpoint>?post_logout_redirect_uri=<encoded-uri>,
    the encoded URI being the percent-encoding of scheme://host with :port
    appended exactly when the port is neither 80 nor 443.  Logging out again,
    now without a session, gives the same redirect and changes nothing. *)
Theorem logout_redirects (session_cookie_password : string) (req : request)
    (w0 w1 w : world) (options : bell_options) :
  setupDefraIdStrategy cfg session_cookie_password w0 = (inr options, w1) ->
  rtc (step parseISO toISOString StringToNumber jwt_token_decode cfg) w1 w ->
  exists p,
    cachedOidcEndpoints w1 = Some p
    /\ yar_store (snd (logout cfg req w)) !! "auth" = None
    /\ (truthy (content p) = true ->
        let scheme := if isProduction cfg then "https" else "http" in
        let uri :=
          if bool_decide (port cfg = 80 \/ port cfg = 443)
          then scheme +:+ "://" +:+ host cfg
          else scheme +:+ "://" +:+ host cfg +:+ ":" +:+ pretty (port cfg) in
        let location :=
          VStr (to_string (get (content p) "end_session_endpoint")
                +:+ "?post_logout_redirect_uri=" +:+ encodeURIComponent uri) in
        logout cfg req w = (inr (Redirect location), cleared w)
        /\ fetched (cleared w) = fetched w
        /\ yar_store (cleared w) !! "auth" = None
        /\ logout cfg req (cleared w) = (inr (Redirect location), cleared w)).
Proof.
  intros Hsetup Hsteps.
  destruct (setup_caches _ _ _ _ Hsetup) as (p & Hp & _).
  exists p. split; [exact Hp|]. split; [apply logout_clears|].
  intros Ht.
  assert (Hc : caches p w) by now apply (caches_for_life p w1 w).
  assert (Hd : getOidcEndpoints cfg (cleared w) = (inr p, cleared w))
    by now apply getOidcEndpoints_cached.
  destruct (logout_with_endpoints cfg req w (cleared w) p Hd Ht) as (Hrun & Hgone & Hagain).
  cbv zeta. split; [exact Hrun|]. split; [reflexivity|]. split; [exact Hgone|exact Hagain].
Qed.

(** X23.  Setting up the Bell strategy primes the discovery cache: the
    endpoints Bell is given are those of the cached document, and, when that
    document is an object, every later logout redirects without a request
    and every later refresh makes its one request to the token endpoint
    Bell was given, whatever the process has done in between. *)
Theorem setup_primes_discovery (session_cookie_password : string)
    (w w1 w2 : world) (options : bell_options) :
  setupDefraIdStrategy cfg session_cookie_password w = (inr options, w1) ->
  exists p,
    cachedOidcEndpoints w1 = Some p
    /\ provider_auth options = get (content p) "authorization_endpoint"
    /\ provider_token options = get (content p) "token_endpoint"
    /\ location options = callbackUrl cfg
    /\ (truthy (content p) = true ->
        rtc (step parseISO toISOString StringToNumber jwt_token_decode cfg) w1 w2 ->
        (forall req, logout cfg req w2 = (inr (logout_reply cfg p), cleared w2))
        /\ (forall rt, truthy rt = true ->
              fetched (snd (refreshAccessToken cfg rt w2))
              = (fetched w2 ++ [token_request cfg p rt])%list
              /\ req_url (token_request cfg p rt) = provider_token options)).
Proof.
  unfold setupDefraIdStrategy. intros H.
  apply bind_inv in H as [(e & _ & ?) | (p & w0 & Hd & H)]; [discriminate|].
  unfold prop in H. destruct (nullish (content p)) eqn:Hn.
  { unfold bind, throw in H. discriminate. }
  unfold bind, ret in H. injection H as <- <-.
  exists p. simpl.
  assert (Hc : cachedOidcEndpoints w0 = Some p).
  { destruct (cache_truthy (cachedOidcEndpoints w)) eqn:Hc.
    - unfold cache_truthy in Hc. destruct (cachedOidcEndpoints w) as [q|] eqn:Hq; [|done].
      rewrite (getOidcEndpoints_cached cfg w q Hq Hc) in Hd. now inversion Hd; subst.
    - rewrite (getOidcEndpoints_discovers cfg w Hc) in Hd. cbv zeta in Hd.
      destruct (network w _ _) as [e|r]; [discriminate|].
      destruct (ok r); [|discriminate]. destruct (json r); [discriminate|].
      now inversion Hd. }
  split; [done|]. split; [done|]. split; [done|]. split; [done|].
  intros Ht Hsteps.
  assert (Hc2 : caches p w2).
  { clear Hd. induction Hsteps as [|x y z Hxy _ IH]; [done|].
    apply IH. now apply (step_caches parseISO toISOString StringToNumber
                            jwt_token_decode cfg p x y). }
  split.
  - intros req. apply logout_runs; [|done].
    now apply getOidcEndpoints_cached.
  - intros rt Hrt. split; [|done].
    now rewrite (refreshAccessToken_cached cfg rt w2 p Hrt Hc2 Ht);
      cbv zeta; destruct (network w2 _ _) as [e|r];
      [|destruct (ok r); [destruct (json r)|]].
Qed.

(** X24.  Behind a route in a mode other than 'try' and 'optional', the
    dashboard handler never throws: whenever the strategy has let the
    request through, the page is rendered with the displayName, email and
    contactId of the credentials.  On a world without a session the handler
    throws a TypeError. *)
Theorem dashboard_behind_required (req : request) (w w1 : world) (c : value) :
  (strategy req w = (inr (Authenticated c), w1) ->
   lenient (auth_mode req) = false ->
   dashboardController w1
   = (inr (View "dashboard/index"
             (VObj (list_to_map
                [ ("pageTitle", VStr "Dashboard");
                  ("heading", VStr "Trade Imports Dashboard");
                  ("user", VObj (list_to_map
                                   [ ("displayName", get c "displayName");
                                     ("email", get c "email");
                                     ("contactId", get c "contactId") ]));
                  ("showImportsLink", VBool true) ]))), w1))
  /\ (yar_store w !! "auth" = None ->
      dashboardController w = (inl (cannot_read VNull "displayName"), w)).
Proof.
  split.
  - intros H Hl.
    destruct (authenticated_is_stored parseISO toISOString StringToNumber cfg
                req w w1 c H) as [[Hs Ht] | [_ Hl']]; [|congruence].
    unfold dashboardController, getSessionValue, bind at 1, yar_get. rewrite Hs.
    cbn [default]. unfold bind. now rewrite !(prop_defined _ _ _ (truthy_not_nullish _ Ht)).
  - intros Hs. unfold dashboardController, getSessionValue, bind, yar_get. now rewrite Hs.
Qed.

End Further.

(** ** CSRF exemption *)

Lemma prefix_extend (q p rest : string) :
  String.prefix q p = true -> String.prefix q (p +:+ rest) = true.
Proof.
  revert p. induction q as [|a q IH]; intros p; [intros _; destruct p; [destruct rest|]; reflexivity|].
  destruct p as [|b p]; [done|].
  change (String b p +:+ rest) with (String b (p +:+ rest)). simpl.
  destruct (Ascii.ascii_dec a b); [apply IH|done].
Qed.

(** X25.  The exemption from CSRF checking goes by prefix alone, in the test
    environment and outside it: a path that extends an exempt path in any
    way is exempt as well. *)
Theorem csrf_exemption_by_prefix (isTest : bool) (path rest : string) :
  skip isTest path = true -> skip isTest (path +:+ rest) = true.
Proof.
  unfold skip, JSString.startsWith. destruct isTest; [done|].
  intros H. apply orb_true_iff in H as [H|H]; [apply orb_true_iff in H as [H|H]|];
    rewrite (prefix_extend _ _ rest H); simpl; now rewrite ?orb_true_r.
Qed.

(** X26.  Outside the test environment no path under /auth or /dashboard is
    exempt from CSRF checking. *)
Theorem csrf_checked_on_auth_routes (rest : string) :
  skip false ("/auth" +:+ rest) = false
  /\ skip false ("/dashboard" +:+ rest) = false.
Proof. split; reflexivity. Qed.

(** * Examples *)

Module Examples.

Import Doubles.

(** ** The repository's tests, replayed on the embedding *)

(** oidc-discovery.test.js: endpoints are fetched once and then served from
    the cache, as the same object. *)
Example replay_discovery_caches :
  let first := getOidcEndpoints cfg signed_out in
  let second := getOidcEndpoints cfg (snd first) in
  fst first = inr (Parsed 0 mockEndpoints)
  /\ fst second = fst first
  /\ length (fetched (snd second)) = 1%nat.
Proof. repeat split; reflexivity. Qed.

(** oidc-discovery.test.js: an HTTP error and a network failure. *)
Example replay_discovery_errors :
  fst (getOidcEndpoints cfg (fresh discovery_not_found t0 ∅))
  = inl (Error "Failed to fetch OIDC configuration: OIDC discovery failed: 404 Not Found")
  /\ fst (getOidcEndpoints cfg (fresh provider_down t0 ∅))
     = inl (Error "Failed to fetch OIDC configuration: fetch failed").
Proof. split; reflexivity. Qed.

(** token-refresh.test.js: no token, a rejected token, a granted one. *)
Example replay_refresh :
  fst (refreshAccessToken cfg VNull signed_out) = inl (Error "No refresh token provided")
  /\ fst (refreshAccessToken cfg (VStr "") signed_out) = inl (Error "No refresh token provided")
  /\ fetched (snd (refreshAccessToken cfg (VStr "") signed_out)) = []
  /\ fst (refreshAccessToken cfg (VStr "invalid-refresh-token") (fresh provider_rejects t0 ∅))
     = inl (Error "Token refresh failed: 400 Bad Request - invalid_grant")
  /\ fst (refreshAccessToken cfg (VStr "test-refresh-token") signed_out) = inr newTokens
  /\ last (fetched (snd (refreshAccessToken cfg (VStr "test-refresh-token") signed_out)))
     = Some (FetchRequest (VStr "https://example.com/token") "POST"
               (Some "application/x-www-form-urlencoded")
               [ ("grant_type", VStr "refresh_token");
                 ("refresh_token", VStr "test-refresh-token");
                 ("client_id", VStr "test-client-id");
                 ("client_secret", VStr "test-client-secret") ]).
Proof. repeat split; reflexivity. Qed.

(** session-strategy.test.js: the expired session of the test is refreshed
    and the new tokens are stored. *)
Example replay_strategy_refreshes :
  let after := auth (dashboard "required") (overdue provider_up) in
  refresh_calls (snd after) = [VStr "old-refresh"]
  /\ get (default VNull (yar_store (snd after) !! "auth")) "accessToken" = VStr "new-token"
  /\ get (default VNull (yar_store (snd after) !! "auth")) "refreshToken" = VStr "new-refresh"
  /\ get (default VNull (yar_store (snd after) !! "auth")) "contactId" = VStr "test-contact".
Proof. repeat split; reflexivity. Qed.

(** auth/controller.test.js: the session the callback creates, and the
    logout redirect. *)
Example replay_controller :
  let after := handler (from_bell "test-id-token") signed_out in
  let stored := default VNull (yar_store (snd after) !! "auth") in
  fst after = inr (Redirect (VStr "/"))
  /\ get stored "contactId" = VStr "test-contact-id"
  /\ get stored "displayName" = VStr "Test User"
  /\ get stored "accessToken" = VStr "test-id-token"
  /\ get stored "refreshToken" = VStr "test-refresh-token"
  /\ get stored "expiresAt" = VStr expires_late
  /\ get stored "roles" = VArr [VStr "user"]
  /\ get stored "relationships" = VArr []
  /\ fst (logout cfg sign_out signed_out)
     = inr (Redirect (VStr
         "https://example.com/logout?post_logout_redirect_uri=http%3A%2F%2Flocalhost%3A3000")).
Proof. repeat split; reflexivity. Qed.

(** ** The claims at concrete inputs *)

Lemma no_session_behaviour_witness :
  yar_store signed_out !! "auth" = None
  /\ auth (dashboard "required") signed_out
     = (inr (RedirectTakeover (VStr "/auth/login")), marked "/dashboard" signed_out)
  /\ auth (dashboard "try") signed_out = (inr (Authenticated (VObj ∅)), signed_out).
Proof.
  split; [reflexivity|]. split.
  - apply (no_session_behaviour parseISO toISOString StringToNumber cfg
             (dashboard "required") signed_out); reflexivity.
  - apply (no_session_behaviour parseISO toISOString StringToNumber cfg
             (dashboard "try") signed_out); [reflexivity|].
    left. reflexivity.
Defined.

Lemma valid_session_no_refresh_witness :
  clock in_good_time (clock_reads in_good_time) + 60000 < t1
  /\ exists w',
       auth (dashboard "required") in_good_time
       = (inr (Authenticated (session expires_late (Some "old-refresh"))), w')
       /\ refresh_calls w' = refresh_calls in_good_time
       /\ fetched w' = fetched in_good_time
       /\ yar_store w' = yar_store in_good_time
       /\ yar_flash w' = yar_flash in_good_time.
Proof.
  split; [reflexivity|].
  apply (valid_session_no_refresh parseISO toISOString StringToNumber cfg
           (dashboard "required") in_good_time _ t1);
    [reflexivity | reflexivity | reflexivity].
Defined.

Lemma refresh_failure_falls_back_witness :
  refreshAccessToken cfg (VStr "old-refresh") (tick (overdue provider_rejects))
  = (inl (Error "Token refresh failed: 400 Bad Request - invalid_grant"),
     refresh_attempted provider_rejects)
  /\ auth (dashboard "required") (overdue provider_rejects)
     = (inr (RedirectTakeover (VStr "/auth/login")),
        marked "/dashboard" (cleared (refresh_attempted provider_rejects)))
  /\ yar_store (marked "/dashboard" (cleared (refresh_attempted provider_rejects))) !! "auth"
     = None.
Proof.
  split; [reflexivity|].
  destruct (refresh_failure_falls_back parseISO toISOString StringToNumber cfg
              (dashboard "required") (overdue provider_rejects)
              (refresh_attempted provider_rejects)
              (session_fields expires_early (Some "old-refresh")) t0
              (Error "Token refresh failed: 400 Bad Request - invalid_grant"))
    as (_ & _ & Hrequired & _);
    [reflexivity | reflexivity | vm_compute; discriminate | reflexivity | reflexivity
    | reflexivity |].
  destruct (Hrequired eq_refl) as (Hrun & Hgone & _).
  split; assumption.
Defined.

Lemma refresh_success_replaces_tokens_witness :
  refreshAccessToken cfg (VStr "old-refresh") (tick (overdue provider_up))
  = (inr newTokens, refresh_attempted provider_up)
  /\ refresh_calls (snd (auth (dashboard "required") (overdue provider_up)))
     = [VStr "old-refresh"]
  /\ exists w3,
       auth (dashboard "required") (overdue provider_up)
       = (inr (Authenticated
                 (VObj (updated (session_fields expires_early (Some "old-refresh"))
                                newTokens (toISOString (t1 + 3600 * 1000))))), w3)
       /\ yar_store w3 !! "auth"
          = Some (VObj (updated (session_fields expires_early (Some "old-refresh"))
                                newTokens (toISOString (t1 + 3600 * 1000)))).
Proof.
  split; [reflexivity|].
  destruct (refresh_success_replaces_tokens parseISO toISOString StringToNumber cfg
              (dashboard "required") (overdue provider_up)
              (session_fields expires_early (Some "old-refresh")) t0)
    as (Hcalls & Hsuccess);
    [reflexivity | reflexivity | vm_compute; discriminate | reflexivity | reflexivity |].
  split; [etransitivity; [exact Hcalls|vm_compute; reflexivity]|].
  destruct (Hsuccess (refresh_attempted provider_up) 3600 newTokens)
    as (w3 & Hrun & Hstored & _);
    [reflexivity | reflexivity | reflexivity | vm_compute; discriminate |].
  exists w3. split; assumption.
Defined.

Lemma expired_without_refresh_token_kept_witness :
  yar_store overdue_no_refresh_token !! "auth" = Some (session expires_early None)
  /\ t0 <= clock overdue_no_refresh_token (clock_reads overdue_no_refresh_token) + 60000
  /\ truthy (get (session expires_early None) "refreshToken") = false
  /\ exists w',
       auth (dashboard "required") overdue_no_refresh_token
       = (inr (Authenticated (session expires_early None)), w')
       /\ yar_store w' = yar_store overdue_no_refresh_token
       /\ yar_flash w' = yar_flash overdue_no_refresh_token
       /\ refresh_calls w' = refresh_calls overdue_no_refresh_token
       /\ fetched w' = fetched overdue_no_refresh_token.
Proof.
  split; [reflexivity|]. split; [vm_compute; discriminate|]. split; [reflexivity|].
  apply (expired_without_refresh_token_kept parseISO toISOString StringToNumber cfg
           (dashboard "required") overdue_no_refresh_token _ t0);
    [reflexivity | reflexivity | vm_compute; discriminate | reflexivity].
Defined.

(** C1.  An expired session without a refresh token is not cleared: in mode
    'required', an hour after expiry, the request is authenticated with the
    stored record and the record stays, where the claim, the comments of
    the dashboard route ("Users MUST have a valid session") and the path of
    a failed refresh all have the session cleared and the request turned
    away to /auth/login. *)
Lemma expired_session_without_refresh_token_accepted :
  yar_store overdue_no_refresh_token !! "auth" = Some (session expires_early None)
  /\ parseISO (get (session expires_early None) "expiresAt") = inr (Some t0)
  /\ t0 <= clock overdue_no_refresh_token (clock_reads overdue_no_refresh_token) + 60000
  /\ get (session expires_early None) "refreshToken" = VUndefined
  /\ fst (auth (dashboard "required") overdue_no_refresh_token)
     = inr (Authenticated (session expires_early None))
  /\ fst (auth (dashboard "required") overdue_no_refresh_token)
     <> inr (RedirectTakeover (VStr "/auth/login"))
  /\ yar_store (snd (auth (dashboard "required") overdue_no_refresh_token)) !! "auth"
     <> None.
Proof.
  split; [reflexivity|]. split; [reflexivity|]. split; [vm_compute; discriminate|].
  split; [reflexivity|]. split; [reflexivity|]. split; vm_compute; discriminate.
Qed.

(** The claim that a session expiring at (now + 1 minute) exactly is
    refreshed fails: the refresh client is not called and the stored record
    is the credentials. *)
Lemma refresh_at_the_minute_counterexample :
  yar_store on_the_minute !! "auth" = Some (session expires_late (Some "old-refresh"))
  /\ parseISO (get (session expires_late (Some "old-refresh")) "expiresAt") = inr (Some t1)
  /\ t1 <= clock on_the_minute (clock_reads on_the_minute) + 60000
  /\ get (session expires_late (Some "old-refresh")) "refreshToken" = VStr "old-refresh"
  /\ refresh_calls (snd (auth (dashboard "required") on_the_minute)) = []
  /\ length (refresh_calls (snd (auth (dashboard "required") on_the_minute))) <> 1%nat
  /\ fst (auth (dashboard "required") on_the_minute)
     = inr (Authenticated (session expires_late (Some "old-refresh")))
  /\ yar_store (snd (auth (dashboard "required") on_the_minute)) !! "auth"
     = Some (session expires_late (Some "old-refresh")).
Proof.
  split; [reflexivity|]. split; [reflexivity|]. split; [vm_compute; discriminate|].
  split; [reflexivity|]. split; [reflexivity|]. split; [vm_compute; discriminate|].
  split; reflexivity.
Qed.

Lemma callback_displayName_witness :
  handler (from_bell "test-id-token") signed_out
  = (inr (Redirect (VStr "/")), snd (handler (from_bell "test-id-token") signed_out))
  /\ exists record,
       yar_store (snd (handler (from_bell "test-id-token") signed_out)) !! "auth"
       = Some (VObj record)
       /\ record !! "displayName" = Some (VStr "Test User").
Proof.
  split; [reflexivity|].
  destruct (callback_displayName toISOString StringToNumber jwt_token_decode
              (from_bell "test-id-token") signed_out
              (snd (handler (from_bell "test-id-token") signed_out))
              (Redirect (VStr "/")))
    as (decoded & Hdecoded & record & Hstored & Hname & _); [reflexivity|].
  exists record. split; [assumption|].
  rewrite Hname. injection Hdecoded as <-. reflexivity.
Defined.

(** The claim that displayName is given_name ?? email fails: with a given_name
    claim that is present and empty, [??] keeps the empty name, and the record
    persisted has the email. *)
Lemma callback_displayName_counterexample :
  jwt_token_decode (VStr "blank-name-token") = inr (artifacts blank_name_claims)
  /\ blank_name_claims !! "given_name" = Some (VStr "")
  /\ coalesce (get (VObj blank_name_claims) "given_name")
              (get (VObj blank_name_claims) "email") = VStr ""
  /\ fst (handler (from_bell "blank-name-token") signed_out) = inr (Redirect (VStr "/"))
  /\ get (default VUndefined
            (yar_store (snd (handler (from_bell "blank-name-token") signed_out)) !! "auth"))
         "displayName" = VStr "test@example.com"
  /\ get (default VUndefined
            (yar_store (snd (handler (from_bell "blank-name-token") signed_out)) !! "auth"))
         "displayName"
     <> coalesce (get (VObj blank_name_claims) "given_name")
                 (get (VObj blank_name_claims) "email").
Proof.
  split; [reflexivity|]. split; [reflexivity|]. split; [reflexivity|].
  split; [reflexivity|]. split; [reflexivity|]. vm_compute. discriminate.
Qed.



Lemma logout_redirects_witness :
  exists options,
    setupDefraIdStrategy cfg Fixtures.cookie_password signed_out
    = (inr options, Fixtures.set_up)
    /\ yar_store (set_yar_flash ∅ (set_yar_store (yar_store in_good_time) Fixtures.set_up))
         !! "auth"
       = Some (session expires_late (Some "old-refresh"))
    /\ logout cfg sign_out
         (set_yar_flash ∅ (set_yar_store (yar_store in_good_time) Fixtures.set_up))
       = (inr (Redirect (VStr
            "https://example.com/logout?post_logout_redirect_uri=http%3A%2F%2Flocalhost%3A3000")),
          cleared (set_yar_flash ∅ (set_yar_store (yar_store in_good_time) Fixtures.set_up))).
Proof.
  assert (H : { options | setupDefraIdStrategy cfg Fixtures.cookie_password signed_out
                          = (inr options, Fixtures.set_up) })
    by (eexists; vm_compute; reflexivity).
  destruct H as [options H]. exists options. split; [exact H|].
  split; [vm_compute; reflexivity|].
  destruct (logout_redirects parseISO toISOString StringToNumber jwt_token_decode cfg
              Fixtures.cookie_password sign_out signed_out Fixtures.set_up
              (set_yar_flash ∅ (set_yar_store (yar_store in_good_time) Fixtures.set_up))
              options H)
    as (p & Hp & _ & Hrun).
  { apply rtc_once.
    exact (step_request parseISO toISOString StringToNumber jwt_token_decode cfg
             (yar_store in_good_time) ∅ Fixtures.set_up). }
  vm_compute in Hp. injection Hp as <-.
  destruct Hrun as (Hrun & _); [vm_compute; reflexivity|].
  etransitivity; [exact Hrun|]. vm_compute. reflexivity.
Defined.

Lemma discovery_cached_for_life_witness :
  getOidcEndpoints cfg signed_out = (inr (Parsed 0 mockEndpoints), discovered)
  /\ getOidcEndpoints cfg later = (inr (Parsed 0 mockEndpoints), later)
  /\ fetched (snd (getOidcEndpoints cfg later)) = fetched later.
Proof.
  split; [reflexivity|].
  apply (discovery_cached_for_life parseISO toISOString StringToNumber jwt_token_decode cfg
           signed_out discovered later (Parsed 0 mockEndpoints));
    [reflexivity | reflexivity |].
  apply rtc_once.
  exact (step_authenticate parseISO toISOString StringToNumber jwt_token_decode cfg
           (dashboard "required") discovered).
Defined.

Lemma discovery_failure_not_cached_witness :
  getOidcEndpoints cfg cut_off
  = (inl (Error "Failed to fetch OIDC configuration: fetch failed"),
     requested (discovery_request cfg) cut_off)
  /\ cachedOidcEndpoints (requested (discovery_request cfg) cut_off) = None
  /\ fetched (snd (getOidcEndpoints cfg (requested (discovery_request cfg) cut_off)))
     = [discovery_request cfg; discovery_request cfg].
Proof.
  split; [reflexivity|].
  destruct (discovery_failure_not_cached cfg cut_off
              (requested (discovery_request cfg) cut_off)
              (Error "Failed to fetch OIDC configuration: fetch failed"))
    as (_ & _ & _ & Hcache & Hagain); [reflexivity|].
  split; [exact Hcache|exact Hagain].
Defined.

End Examples.

(** * Further examples *)

Module MoreExamples.

Import Doubles Fixtures.

(** defra-id-strategy.test.js, replayed. *)
Example replay_providerParams :
  providerParams serviceId (VObj ∅) = {[ "serviceId" := VStr "test-service-id" ]}
  /\ providerParams serviceId (hinted (VStr "user@example.com")) !! "login_hint"
     = Some (VStr "user@example.com")
  /\ providerParams serviceId (hinted (VStr "  user@example.com  ")) !! "login_hint"
     = Some (VStr "user@example.com")
  /\ providerParams serviceId (hinted (VStr "   ")) = {[ "serviceId" := VStr "test-service-id" ]}
  /\ providerParams serviceId (hinted (VNum 12345)) !! "login_hint" = Some (VStr "12345").
Proof.
  split; [vm_compute; reflexivity|]. split; [vm_compute; reflexivity|].
  split; [vm_compute; reflexivity|]. split; vm_compute; reflexivity.
Qed.

Lemma login_hint_forwarded_clean_witness :
  providerParams serviceId (hinted (VStr "  user@example.com  ")) !! "login_hint"
  = Some (VStr "user@example.com")
  /\ exists h,
       VStr "user@example.com" = VStr h
       /\ h = JSString.trim (to_string (get (hinted (VStr "  user@example.com  ")) "login_hint"))
       /\ h <> ""
       /\ (JSString.length h <= 255)%nat
       /\ leading_white_space h = false
       /\ trailing_white_space h = false.
Proof.
  split; [vm_compute; reflexivity|].
  apply (login_hint_forwarded_clean serviceId (hinted (VStr "  user@example.com  "))).
  vm_compute. reflexivity.
Defined.

Lemma login_hint_forwarded_again_witness :
  providerParams serviceId (hinted (VStr "  user@example.com  ")) !! "login_hint"
  = Some (VStr "user@example.com")
  /\ providerParams serviceId (VObj {[ "login_hint" := VStr "user@example.com" ]}) !! "login_hint"
     = Some (VStr "user@example.com").
Proof.
  split; [vm_compute; reflexivity|].
  apply (login_hint_forwarded_again serviceId (hinted (VStr "  user@example.com  "))).
  vm_compute. reflexivity.
Defined.

Lemma discovery_errors_wrapped_witness :
  getOidcEndpoints cfg (fresh discovery_not_found t0 ∅)
  = (inl (Error "Failed to fetch OIDC configuration: OIDC discovery failed: 404 Not Found"),
     requested (discovery_request cfg) (fresh discovery_not_found t0 ∅))
  /\ exists cause,
       Error "Failed to fetch OIDC configuration: OIDC discovery failed: 404 Not Found"
       = Error ("Failed to fetch OIDC configuration: " +:+ cause)
       /\ cause = "OIDC discovery failed: 404 Not Found".
Proof.
  split; [reflexivity|].
  destruct (discovery_errors_wrapped cfg (fresh discovery_not_found t0 ∅) _ _ eq_refl)
    as (cause & He & Hc).
  exists cause. split; [exact He|exact Hc].
Defined.

Lemma discovery_success_cached_witness :
  getOidcEndpoints cfg signed_out = (inr (Parsed 0 mockEndpoints), discovered)
  /\ cachedOidcEndpoints discovered = Some (Parsed 0 mockEndpoints).
Proof.
  split; [reflexivity|].
  exact (proj1 (discovery_success_cached cfg signed_out discovered
                  (Parsed 0 mockEndpoints) eq_refl)).
Defined.

Lemma refresh_without_token_witness :
  truthy (VStr "") = false
  /\ refreshAccessToken cfg (VStr "") signed_out
     = (inl (Error "No refresh token provided"), noted (VStr "") signed_out)
  /\ fetched (noted (VStr "") signed_out) = fetched signed_out
  /\ cachedOidcEndpoints (noted (VStr "") signed_out) = cachedOidcEndpoints signed_out.
Proof.
  split; [reflexivity|].
  apply (refresh_without_token cfg (VStr "") signed_out). reflexivity.
Defined.


Lemma refresh_discovery_failure_witness :
  getOidcEndpoints cfg (noted (VStr "old-refresh") cut_off)
  = (inl (Error "Failed to fetch OIDC configuration: fetch failed"),
     requested (discovery_request cfg) (noted (VStr "old-refresh") cut_off))
  /\ refreshAccessToken cfg (VStr "old-refresh") cut_off
     = (inl (Error "Failed to fetch OIDC configuration: fetch failed"),
        requested (discovery_request cfg) (noted (VStr "old-refresh") cut_off))
  /\ fetched (requested (discovery_request cfg) (noted (VStr "old-refresh") cut_off))
     = (fetched cut_off ++ [discovery_request cfg])%list.
Proof.
  split; [reflexivity|].
  destruct (refresh_discovery_failure cfg (VStr "old-refresh") cut_off _ _ eq_refl eq_refl)
    as (Hrun & Hreq & _).
  split; [exact Hrun|exact Hreq].
Defined.

Lemma strategy_recovers_refresh_errors_witness :
  exists r w', auth (dashboard "required") (overdue provider_rejects) = (inr r, w').
Proof.
  apply (strategy_recovers_refresh_errors parseISO toISOString StringToNumber cfg
           (dashboard "required") (overdue provider_rejects)).
  intros e. vm_compute. discriminate.
Defined.

Lemma strategy_reply_matches_session_witness :
  auth (dashboard "required") (overdue provider_rejects)
  = (inr (RedirectTakeover (VStr "/auth/login")),
     snd (auth (dashboard "required") (overdue provider_rejects)))
  /\ truthy (default VNull
               (yar_store (snd (auth (dashboard "required") (overdue provider_rejects)))
                  !! "auth")) = false
  /\ last (default []
             (yar_flash (snd (auth (dashboard "required") (overdue provider_rejects)))
                !! "redirect"))
     = Some (VStr "/dashboard").
Proof.
  assert (H : auth (dashboard "required") (overdue provider_rejects)
              = (inr (RedirectTakeover (VStr "/auth/login")),
                 snd (auth (dashboard "required") (overdue provider_rejects))))
    by (vm_compute; reflexivity).
  split; [exact H|].
  destruct (strategy_reply_matches_session parseISO toISOString StringToNumber cfg
              (dashboard "required") (overdue provider_rejects) _ _ H)
    as (_ & _ & Hgone & Hmark).
  split; [exact Hgone|exact Hmark].
Defined.

Lemma unusable_refresh_response_clears_witness :
  refreshAccessToken cfg (VStr "old-refresh") (tick (overdue provider_sloppy))
  = (inr (VObj {[ "access_token" := VStr "new-token" ]}),
     snd (refreshAccessToken cfg (VStr "old-refresh") (tick (overdue provider_sloppy))))
  /\ yar_store (snd (auth (dashboard "required") (overdue provider_sloppy))) !! "auth" = None
  /\ fst (auth (dashboard "required") (overdue provider_sloppy))
     = inr (RedirectTakeover (VStr "/auth/login")).
Proof.
  split; [vm_compute; reflexivity|].
  apply (unusable_refresh_response_clears parseISO toISOString StringToNumber cfg
           (dashboard "required") (overdue provider_sloppy)
           (snd (refreshAccessToken cfg (VStr "old-refresh") (tick (overdue provider_sloppy))))
           (session_fields expires_early (Some "old-refresh")) t0
           (VObj {[ "access_token" := VStr "new-token" ]}));
    [vm_compute; reflexivity | vm_compute; reflexivity | vm_compute; discriminate
    | vm_compute; reflexivity | vm_compute; reflexivity | vm_compute; reflexivity |].
  right. exact I.
Defined.

Lemma invalid_expiry_never_expires_witness :
  parseISO (get (session "soon" (Some "old-refresh")) "expiresAt") = inr None
  /\ auth (dashboard "required") undated
     = (inr (Authenticated (session "soon" (Some "old-refresh"))), tick undated)
  /\ refresh_calls (tick undated) = refresh_calls undated.
Proof.
  assert (H : parseISO (get (session "soon" (Some "old-refresh")) "expiresAt") = inr None)
    by (vm_compute; reflexivity).
  split; [exact H|].
  destruct (invalid_expiry_never_expires parseISO toISOString StringToNumber cfg
              (dashboard "required") undated
              (session_fields "soon" (Some "old-refresh")) eq_refl H)
    as (Hrun & Hcalls & _).
  split; [exact Hrun|exact Hcalls].
Defined.

Lemma credentials_given_again_witness :
  auth (dashboard "required") in_good_time
  = (inr (Authenticated (session expires_late (Some "old-refresh"))), tick in_good_time)
  /\ auth (dashboard "try") (tick in_good_time)
     = (inr (Authenticated (session expires_late (Some "old-refresh"))),
        tick (tick in_good_time)).
Proof.
  split; [vm_compute; reflexivity|].
  apply (credentials_given_again parseISO toISOString StringToNumber cfg
           (dashboard "required") (dashboard "try") in_good_time (tick in_good_time)
           (session_fields expires_late (Some "old-refresh")) t1);
    [vm_compute; reflexivity | | vm_compute; reflexivity | vm_compute; discriminate].
  intros H. apply (f_equal (fun m => m !! "contactId")) in H. vm_compute in H. discriminate.
Defined.

Lemma callback_then_strategy_witness :
  handler (from_bell "test-id-token") turned_away = (inr (Redirect (VStr "/dashboard")), called_back)
  /\ auth (dashboard "required") called_back
     = (inr (Authenticated (default VNull (yar_store called_back !! "auth"))),
        tick called_back).
Proof.
  assert (H : handler (from_bell "test-id-token") turned_away
              = (inr (Redirect (VStr "/dashboard")), called_back))
    by (vm_compute; reflexivity).
  split; [exact H|].
  destruct (callback_then_strategy parseISO toISOString StringToNumber jwt_token_decode cfg
              (from_bell "test-id-token") (dashboard "required") turned_away called_back
              (Redirect (VStr "/dashboard")) t1 H)
    as (record & n & Hstore & _ & _ & Hrun).
  assert (Hr : VObj record = default VNull (yar_store called_back !! "auth"))
    by (rewrite Hstore; reflexivity).
  rewrite Hstore. apply Hrun.
  - rewrite Hr. vm_compute. reflexivity.
  - vm_compute. discriminate.
Defined.

Lemma pending_redirect_round_trip_witness :
  auth (dashboard "required") (overdue provider_rejects)
  = (inr (RedirectTakeover (VStr "/auth/login")), refused)
  /\ handler (from_bell "test-id-token") refused
     = (inr (Redirect (VStr "/dashboard")),
        snd (handler (from_bell "test-id-token") refused))
  /\ yar_flash (snd (handler (from_bell "test-id-token") refused)) !! "redirect" = None.
Proof.
  assert (Hturned : auth (dashboard "required") (overdue provider_rejects)
                    = (inr (RedirectTakeover (VStr "/auth/login")), refused))
    by (vm_compute; reflexivity).
  assert (H : handler (from_bell "test-id-token") refused
              = (inr (Redirect (VStr "/dashboard")),
                 snd (handler (from_bell "test-id-token") refused)))
    by (vm_compute; reflexivity).
  destruct (pending_redirect_round_trip parseISO toISOString StringToNumber jwt_token_decode
              cfg (dashboard "required") (from_bell "test-id-token")
              (overdue provider_rejects) refused refused
              (snd (handler (from_bell "test-id-token") refused))
              (VStr "/auth/login") (Redirect (VStr "/dashboard")))
    as (_ & _ & Hgone);
    [exact Hturned | vm_compute; reflexivity | reflexivity | exact H |].
  split; [exact Hturned|]. split; [exact H|exact Hgone].
Defined.

Lemma pending_redirect_one_shot_witness :
  handler (from_bell "test-id-token") turned_away
  = (inr (Redirect (VStr "/dashboard")), called_back)
  /\ handler (from_bell "blank-name-token") called_back
     = (inr (Redirect (VStr "/")), snd (handler (from_bell "blank-name-token") called_back))
  /\ yar_flash called_back !! "redirect" = None.
Proof.
  assert (H : handler (from_bell "test-id-token") turned_away
              = (inr (Redirect (VStr "/dashboard")), called_back))
    by (vm_compute; reflexivity).
  assert (H' : handler (from_bell "blank-name-token") called_back
               = (inr (Redirect (VStr "/")),
                  snd (handler (from_bell "blank-name-token") called_back)))
    by (vm_compute; reflexivity).
  destruct (pending_redirect_one_shot toISOString StringToNumber jwt_token_decode
              (from_bell "test-id-token") (from_bell "blank-name-token")
              turned_away called_back _ _ _ H H')
    as (_ & Hgone & _).
  split; [exact H|]. split; [exact H'|exact Hgone].
Defined.

Lemma callback_replaces_session_witness :
  handler (from_bell "no-claims-token") in_good_time
  = (inr (Redirect (VStr "/")), snd (handler (from_bell "no-claims-token") in_good_time))
  /\ exists record,
       yar_store (snd (handler (from_bell "no-claims-token") in_good_time))
       = <["auth" := VObj record]> (yar_store in_good_time)
       /\ (forall k, is_Some (record !! k) <-> k ∈ session_keys)
       /\ truthy (get (VObj record) "relationships") = true
       /\ truthy (get (VObj record) "roles") = true
       /\ handler (from_bell "no-claims-token")
            (set_yar_store {[ "visits" := VNum 3 ]} in_good_time)
          = (inr (Redirect (VStr "/")),
             set_yar_store (<["auth" := VObj record]> {[ "visits" := VNum 3 ]})
               (snd (handler (from_bell "no-claims-token") in_good_time))).
Proof.
  assert (H : handler (from_bell "no-claims-token") in_good_time
              = (inr (Redirect (VStr "/")),
                 snd (handler (from_bell "no-claims-token") in_good_time)))
    by (vm_compute; reflexivity).
  split; [exact H|].
  exact (callback_replaces_session toISOString StringToNumber jwt_token_decode
           (from_bell "no-claims-token") in_good_time _ _ {[ "visits" := VNum 3 ]} H).
Defined.

Lemma callback_and_logout_origins_witness :
  host cfg <> "0.0.0.0"
  /\ callbackUrl cfg = postLogoutUri cfg +:+ "/auth/callback".
Proof.
  assert (H : host cfg <> "0.0.0.0") by (vm_compute; discriminate).
  split; [exact H|].
  pose proof (callback_and_logout_origins cfg) as T. cbv zeta in T.
  exact (proj1 T H).
Defined.

Lemma setup_primes_discovery_witness :
  exists options,
    setupDefraIdStrategy cfg cookie_password signed_out = (inr options, set_up)
    /\ provider_token options = VStr "https://example.com/token"
    /\ forall req,
         logout cfg req set_up
         = (inr (logout_reply cfg (Parsed 0 mockEndpoints)), cleared set_up).
Proof.
  assert (H : { options | setupDefraIdStrategy cfg cookie_password signed_out
                          = (inr options, set_up) })
    by (eexists; vm_compute; reflexivity).
  destruct H as [options H]. exists options. split; [exact H|].
  destruct (setup_primes_discovery parseISO toISOString StringToNumber jwt_token_decode cfg
              cookie_password signed_out set_up set_up options H)
    as (p & Hp & _ & Htoken & _ & Hlater).
  vm_compute in Hp. injection Hp as <-.
  split; [rewrite Htoken; vm_compute; reflexivity|].
  apply Hlater; [vm_compute; reflexivity | apply rtc_refl].
Defined.

Lemma dashboard_behind_required_witness :
  auth (dashboard "required") called_back
  = (inr (Authenticated (default VNull (yar_store called_back !! "auth"))), tick called_back)
  /\ get (default VNull (yar_store called_back !! "auth")) "displayName" = VStr "Test User"
  /\ fst (dashboardController (tick called_back))
     = inr (View "dashboard/index"
              (VObj (list_to_map
                 [ ("pageTitle", VStr "Dashboard");
                   ("heading", VStr "Trade Imports Dashboard");
                   ("user", VObj (list_to_map
                                    [ ("displayName", VStr "Test User");
                                      ("email", VStr "test@example.com");
                                      ("contactId", VStr "test-contact-id") ]));
                   ("showImportsLink", VBool true) ]))).
Proof.
  assert (H : auth (dashboard "required") called_back
              = (inr (Authenticated (default VNull (yar_store called_back !! "auth"))),
                 tick called_back))
    by (vm_compute; reflexivity).
  split; [exact H|]. split; [vm_compute; reflexivity|].
  rewrite (proj1 (dashboard_behind_required parseISO toISOString StringToNumber cfg
                    (dashboard "required") called_back (tick called_back)
                    (default VNull (yar_store called_back !! "auth"))) H);
    [vm_compute; reflexivity | vm_compute; reflexivity].
Defined.

Lemma csrf_exemption_by_prefix_witness :
  skip false "/health" = true /\ skip false "/healthcheck/secrets" = true.
Proof.
  split; [vm_compute; reflexivity|].
  apply (csrf_exemption_by_prefix false "/health" "check/secrets").
  vm_compute. reflexivity.
Defined.


(** A session whose expiresAt is the first date there is: a minute earlier
    there is none, so the session is not found expired and is used as it
    stands, an hour into 2025, without a refresh. *)
Example replay_first_date :
  parseISO (get (session "-271821-04-20T00:00:00.000Z" (Some "old-refresh")) "expiresAt")
  = inr (Some (- max_time))
  /\ - max_time < clock ancient (clock_reads ancient) + 60000
  /\ auth (dashboard "required") ancient
     = (inr (Authenticated (session "-271821-04-20T00:00:00.000Z" (Some "old-refresh"))),
        tick ancient)
  /\ refresh_calls (tick ancient) = [].
Proof.
  split; [vm_compute; reflexivity|]. split; [vm_compute; reflexivity|].
  split; vm_compute; reflexivity.
Qed.

End MoreExamples.
